(** * hub: release, remote and help handlers

    A shallow embedding of the command handlers of the repository
    (the [release] and [remote] commands, and [commands/help.go]) and of the
    argument container they work on, with the properties the
    specification states about them.

    The handlers are Go functions of type [func(cmd *Command, args *Args)].
    They mutate the argument container in place, call external collaborators
    (local repository, hosting API, editor, external binary), print, and end
    the process.  They are embedded in a small monad that threads the
    container, records every collaborator call and every print in a trace,
    and stops at [os.Exit]. *)

From Stdlib Require Import ZArith String Ascii List Lia Bool.
From stdpp Require Import base list strings gmap.
Import ListNotations.

Open Scope string_scope.
Open Scope list_scope.
Open Scope Z_scope.

(** ** Go values *)

(** A Go [error] value, by its message. *)
Definition error := string.

(** A Go [(value, err)] return pair. *)
Inductive result (A : Type) : Type :=
| Ok (a : A)
| Err (e : error).
Arguments Ok {A} a.
Arguments Err {A} e.

Definition nl : string := String (ascii_of_nat 10) EmptyString.

(** [github.Project], as far as the handlers read it: the [Host] field and
    the text [String()] gives (what [%s] prints). *)
Record Project : Type := mkProject {
  Host : string;
  project_String : string
}.

Record ReleaseAsset : Type := mkReleaseAsset {
  DownloadUrl : string
}.

(** [github.Release], the fields the handlers read or write. *)
Record Release : Type := mkRelease {
  Name : string;
  TagName : string;
  TargetCommitish : string;
  Body : string;
  Draft : bool;
  Prerelease : bool;
  Assets : list ReleaseAsset;
  ZipballUrl : string;
  TarballUrl : string;
  HtmlUrl : string
}.

(** A command node, as the help listing reads it through its methods
    [Name()], [Runnable()], [List()] and the [Short] field. *)
Record Command : Type := mkCommand {
  cmd_Name : string;
  cmd_Short : string;
  cmd_Runnable : bool;
  cmd_List : bool
}.

(** The process-wide category lists [Branching], [Remote], [GitHub] and the
    flat list [All()]. *)
Record Registry : Type := mkRegistry {
  Branching : list Command;
  RemoteCommands : list Command;
  GitHub : list Command;
  All : list Command
}.

(** ** The argument container *)

(** Modelled from the spec: the type [Args] is not part of the sources at
    hand.  The container as a handler receives it: the ordered tokens that
    remain after the command path, and the no-op latch. *)
Record Args : Type := mkArgs {
  Params : list string;
  Noop : bool
}.

(** ** Observable events *)

Inductive Event : Type :=
| EvLocalRepo
| EvMainProject
| EvCurrentProject
| EvCurrentBranch
| EvNewClient (host : string)
| EvFetchRelease (p : Project) (tag : string)
| EvCreateRelease (p : Project) (params : Release)
| EvUploadReleaseAsset (r : option Release) (asset label : string)
| EvCommentChar
| EvRenderReleaseTpl (cs tag project commitish : string)
| EvNewEditor (message : string)
| EvEditTitleAndBody
| EvEditorDeleteFile
| EvReadMsgFromFile (filename : string)
| EvExpandRemoteUrl (owner : string) (private : bool)
| EvSysExec (command : string) (argv : list string)
| EvPrintCommandUsage (c : Command)
| EvStdout (s : string)
| EvStderr (s : string).

(** Printing is the only event that is not a call to a collaborator. *)
Definition is_print (e : Event) : bool :=
  match e with
  | EvStdout _ | EvStderr _ => true
  | _ => false
  end.

(** Calls that reach the hosting API: fetching or creating a release,
    uploading an asset.  Building the client value ([github.NewClient])
    sends nothing. *)
Definition is_api_call (e : Event) : bool :=
  match e with
  | EvFetchRelease _ _ | EvCreateRelease _ _ | EvUploadReleaseAsset _ _ _ => true
  | _ => false
  end.

(** ** What the collaborators answer *)

Record Env : Type := mkEnv {
  env_LocalRepo : option error;
  env_MainProject : result Project;
  env_CurrentProject : result Project;
  env_CurrentBranch : result string;          (* the branch's ShortName() *)
  env_FetchRelease : Project -> string -> result Release;
  env_CreateRelease : Project -> Release -> result Release;
  env_UploadReleaseAsset : Release -> string -> string -> option error;
  env_CommentChar : string;
  env_renderReleaseTpl : string -> string -> string -> string -> result string;
  env_NewEditor : string -> option error;
  env_EditTitleAndBody : result (string * string);
  env_readMsg : string -> string * string;
  env_readMsgFromFile : string -> result (string * string);
  env_ExpandRemoteUrl : string -> bool -> string;
  env_SysExec : string -> list string -> option error;
  env_log_header : string;                    (* what the log package prints first *)
  env_fmt_q : string -> string;               (* the %q verb *)
  env_registry : Registry
}.

(** ** The handler monad *)

Record State : Type := mkState {
  st_args : Args;
  st_trace : list Event;
  st_deferred : list Event
}.

Inductive Outcome (A : Type) : Type :=
| Returned (a : A)
| Exited (status : Z)
| Panicked (msg : string).
Arguments Returned {A} a.
Arguments Exited {A} status.
Arguments Panicked {A} msg.

Definition M (A : Type) : Type := State -> State * Outcome A.

Definition ret {A : Type} (a : A) : M A := fun s => (s, Returned a).

Definition bind {A B : Type} (m : M A) (k : A -> M B) : M B :=
  fun s =>
    match m s with
    | (s', Returned a) => k a s'
    | (s', Exited n) => (s', Exited n)
    | (s', Panicked msg) => (s', Panicked msg)
    end.

Declare Scope go_scope.
Delimit Scope go_scope with go.
Notation "x <- m ;; k" := (bind m (fun x => k))
  (at level 100, m at next level, right associativity) : go_scope.
Notation "m ;;; k" := (bind m (fun _ => k))
  (at level 100, right associativity) : go_scope.
Open Scope go_scope.

Definition emit (e : Event) : M unit :=
  fun s => (mkState (st_args s) (st_trace s ++ [e]) (st_deferred s), Returned tt).

Definition defer_ (e : Event) : M unit :=
  fun s => (mkState (st_args s) (st_trace s) (e :: st_deferred s), Returned tt).

Definition os_Exit {A : Type} (status : Z) : M A := fun s => (s, Exited status).

Definition panic {A : Type} (msg : string) : M A := fun s => (s, Panicked msg).

Definition get_args : M Args := fun s => (s, Returned (st_args s)).

Definition put_params (ps : list string) : M unit :=
  fun s => (mkState (mkArgs ps (Noop (st_args s))) (st_trace s) (st_deferred s),
            Returned tt).

(** A handler is run on a fresh state.  When it returns, the deferred calls
    run; [os.Exit] and a panic of the model skip them. *)
Definition init_state (args : Args) : State := mkState args [] [].

Definition run {A : Type} (m : M A) (args : Args) : State * Outcome A :=
  match m (init_state args) with
  | (s, Returned a) =>
      (mkState (st_args s) (st_trace s ++ st_deferred s) [], Returned a)
  | r => r
  end.

Definition trace_of {A : Type} (r : State * Outcome A) : list Event := st_trace (fst r).
Definition outcome_of {A : Type} (r : State * Outcome A) : Outcome A := snd r.
Definition args_of {A : Type} (r : State * Outcome A) : list string :=
  Params (st_args (fst r)).

(** What was written to standard output. *)
Definition stdout_of (t : list Event) : list string :=
  flat_map (fun e => match e with EvStdout s => [s] | _ => [] end) t.

(** Modelled from the spec: the dispatcher that calls the handler is not
    part of the sources at hand.  A handler that returns without calling
    [os.Exit] leaves the process to end successfully ("success", as the
    comment in [runHelp] has it); a Go panic ends it with status 2. *)
Definition process_status (o : Outcome unit) : Z :=
  match o with
  | Returned _ => 0
  | Exited n => n
  | Panicked _ => 2
  end.

(** ** Printing and error checking *)

Definition ui_Printf (s : string) : M unit := emit (EvStdout s).
Definition ui_Println (s : string) : M unit := emit (EvStdout (s +:+ nl)).
Definition ui_Errorf (s : string) : M unit := emit (EvStderr s).

(** Modelled from the spec: [utils.Check] is not part of the sources at
    hand.  Section 4.3 and section 7 of the specification give the
    error-propagation contract: a checked failure is printed to standard
    error and ends the process at once, with status 1. *)
Definition Check_status : Z := 1.

Definition utils_Check (err : option error) : M unit :=
  match err with
  | None => ret tt
  | Some e => emit (EvStderr (e +:+ nl)) ;;; os_Exit Check_status
  end.

(** [v, err := f(); utils.Check(err)] *)
Definition checked {A : Type} (ev : Event) (r : result A) : M A :=
  emit ev ;;;
  match r with
  | Ok a => ret a
  | Err e => utils_Check (Some e) ;;; panic "unreachable"
  end.

(** [log.Fatal]: the message on standard error, then [os.Exit(1)]. *)
Definition log_Fatal {A : Type} (header msg : string) : M A :=
  emit (EvStderr (header +:+ msg +:+ nl)) ;;; os_Exit 1.

(** ** Operations of the argument container *)

(** The methods of [Args] are not part of the sources at hand; section 4.1
    of the specification describes them. *)

(** Modelled from the spec: the position [indexOf] answers, the first one
    of the token, or the "not found" value -1. *)
Fixpoint index_of (tok : string) (l : list string) : Z :=
  match l with
  | [] => -1
  | x :: r =>
      if String.eqb x tok then 0
      else let i := index_of tok r in
           if i <? 0 then -1 else i + 1
  end.

(** Modelled from the spec: [size()], the count of remaining tokens. *)
Definition Size : M Z :=
  a <- get_args ;; ret (Z.of_nat (length (Params a))).

(** Modelled from the spec: [isEmpty()]. *)
Definition IsEmpty : M bool :=
  n <- Size ;; ret (n =? 0).

(** Modelled from the spec: [first()], which fails with EmptyArguments when
    no token remains. *)
Definition First : M string :=
  a <- get_args ;;
  match Params a with
  | [] => panic "EmptyArguments"
  | x :: _ => ret x
  end.

(** Modelled from the spec: [indexOf(token)]. *)
Definition IndexOf (tok : string) : M Z :=
  a <- get_args ;; ret (index_of tok (Params a)).

(** Modelled from the spec: [remove(index)] removes and returns the token
    at [index] and shifts the later ones; out of range it fails (a Go slice
    access out of range panics). *)
Definition Remove (i : Z) : M string :=
  a <- get_args ;;
  if (i <? 0) || (Z.of_nat (length (Params a)) <=? i) then panic "index out of range"
  else
    match Params a !! Z.to_nat i with
    | Some x => put_params (delete (Z.to_nat i) (Params a)) ;;; ret x
    | None => panic "index out of range"
    end.

(** Modelled from the spec: [append(tokens...)]. *)
Definition Append (toks : list string) : M unit :=
  a <- get_args ;; put_params (Params a ++ toks).

(** Modelled from the spec: [lastParam()], the final positional token: the
    token at index [size() - 1].  With no token left that index is out of
    range and the access fails as a Go slice access out of range does, with
    a run-time panic; where section 4.1 has "or empty string if none", the
    handlers do not get an empty string back. *)
Definition LastParam : M string :=
  a <- get_args ;;
  if Z.of_nat (length (Params a)) - 1 <? 0 then panic "index out of range"
  else ret (List.last (Params a) "").

(** Modelled from the spec: [array()]. *)
Definition Array : M (list string) :=
  a <- get_args ;; ret (Params a).

(** The field [args.Noop]. *)
Definition IsNoop : M bool :=
  a <- get_args ;; ret (Noop a).

(** ** Functions of the Go standard library the handlers call *)

Fixpoint string_drop (n : nat) (s : string) : string :=
  match n, s with
  | O, _ => s
  | S n', String _ r => string_drop n' r
  | S _, EmptyString => EmptyString
  end.

(** The text before and after the first occurrence of [sep] in [s]. *)
Fixpoint cut (sep s : string) : option (string * string) :=
  if String.prefix sep s then Some (EmptyString, string_drop (String.length sep) s)
  else
    match s with
    | EmptyString => None
    | String c r =>
        match cut sep r with
        | Some (b, a) => Some (String c b, a)
        | None => None
        end
    end.

Fixpoint SplitN_upto (k : nat) (s sep : string) : list string :=
  match k with
  | O => []
  | S O => [s]
  | S k' =>
      match cut sep s with
      | Some (b, a) => b :: SplitN_upto k' a sep
      | None => [s]
      end
  end.

(** [strings.SplitN(s, sep, n)] for a non-empty separator: at most [n]
    pieces when [n > 0], the last one the unsplit remainder; no piece when
    [n = 0]; every piece when [n < 0]. *)
Definition strings_SplitN (s sep : string) (n : Z) : list string :=
  if n =? 0 then []
  else if n <? 0 then SplitN_upto (S (String.length s)) s sep
  else SplitN_upto (Z.to_nat n) s sep.

(** The white-space characters of [unicode.IsSpace], by their UTF-8
    encodings.  In one byte: tab, line feed, vertical tab, form feed,
    carriage return and space. *)
Definition is_space (c : ascii) : bool :=
  let n := nat_of_ascii c in
  ((9 <=? n)%nat && (n <=? 13)%nat) || (n =? 32)%nat.

(** In two bytes: U+0085 (next line) and U+00A0 (no-break space). *)
Definition is_space2 (a b : ascii) : bool :=
  (nat_of_ascii a =? 194)%nat
  && ((nat_of_ascii b =? 133)%nat || (nat_of_ascii b =? 160)%nat).

(** In three bytes: U+1680, U+2000 to U+200A, U+2028, U+2029, U+202F,
    U+205F and U+3000. *)
Definition is_space3 (a b c : ascii) : bool :=
  let x := nat_of_ascii a in
  let y := nat_of_ascii b in
  let z := nat_of_ascii c in
  ((x =? 225)%nat && (y =? 154)%nat && (z =? 128)%nat)
  || ((x =? 226)%nat && (y =? 128)%nat
      && (((128 <=? z)%nat && (z <=? 138)%nat)
          || (z =? 168)%nat || (z =? 169)%nat || (z =? 175)%nat))
  || ((x =? 226)%nat && (y =? 129)%nat && (z =? 159)%nat)
  || ((x =? 227)%nat && (y =? 128)%nat && (z =? 128)%nat).

(** [strings.TrimLeftFunc(s, unicode.IsSpace)]: the characters are decoded
    from the left, and the white-space ones are dropped up to the first
    character that is not white space.  A byte sequence that is not the
    encoding of a character decodes to U+FFFD, which is not white space. *)
Fixpoint trim_left (s : string) : string :=
  match s with
  | EmptyString => EmptyString
  | String a r =>
      if is_space a then trim_left r
      else
        match r with
        | EmptyString => s
        | String b r2 =>
            if is_space2 a b then trim_left r2
            else
              match r2 with
              | EmptyString => s
              | String c r3 => if is_space3 a b c then trim_left r3 else s
              end
        end
  end.

(** The string is made of white-space characters only. *)
Definition all_space (s : string) : bool := String.eqb (trim_left s) EmptyString.

(** [strings.TrimRightFunc(s, unicode.IsSpace)]: the characters are decoded
    from the right, and the white-space ones are dropped; what is dropped is
    the longest suffix made of white-space characters. *)
Fixpoint trim_right (s : string) : string :=
  match s with
  | EmptyString => EmptyString
  | String c r => if all_space s then EmptyString else String c (trim_right r)
  end.

(** [strings.TrimSpace]: the white space of Unicode is removed at both
    ends. *)
Definition strings_TrimSpace (s : string) : string := trim_right (trim_left s).

Fixpoint spaces (n : nat) : string :=
  match n with
  | O => EmptyString
  | S n' => String " "%char (spaces n')
  end.

(** [utf8.RuneCountInString]: the number of characters of a string.  A
    byte below 128 is a character; a leading byte followed by the
    continuation bytes its range asks for is one character; any other byte
    counts for one (it decodes to U+FFFD, width 1). *)
Definition continuation (lo hi : nat) (c : ascii) : bool :=
  (lo <=? nat_of_ascii c)%nat && (nat_of_ascii c <=? hi)%nat.

(** For a leading byte: the length of the encoding and the range accepted
    for its second byte (the tables [first] and [acceptRanges] of package
    [utf8]). *)
Definition leading (c : ascii) : option (nat * nat * nat) :=
  let n := nat_of_ascii c in
  if (n <? 194)%nat then None
  else if (n <=? 223)%nat then Some (2, 128, 191)%nat
  else if (n =? 224)%nat then Some (3, 160, 191)%nat
  else if (n =? 237)%nat then Some (3, 128, 159)%nat
  else if (n <=? 239)%nat then Some (3, 128, 191)%nat
  else if (n =? 240)%nat then Some (4, 144, 191)%nat
  else if (n <=? 243)%nat then Some (4, 128, 191)%nat
  else if (n =? 244)%nat then Some (4, 128, 143)%nat
  else None.

Fixpoint rune_count (s : string) : nat :=
  match s with
  | EmptyString => O
  | String c r =>
      if (nat_of_ascii c <? 128)%nat then S (rune_count r)
      else
        match leading c, r with
        | Some (size, lo, hi), String c1 r1 =>
            if continuation lo hi c1 then
              if (size =? 2)%nat then S (rune_count r1)
              else
                match r1 with
                | String c2 r2 =>
                    if continuation 128 191 c2 then
                      if (size =? 3)%nat then S (rune_count r2)
                      else
                        match r2 with
                        | String c3 r3 =>
                            if continuation 128 191 c3 then S (rune_count r3)
                            else S (rune_count r)
                        | EmptyString => S (rune_count r)
                        end
                    else S (rune_count r)
                | EmptyString => S (rune_count r)
                end
            else S (rune_count r)
        | _, _ => S (rune_count r)
        end
  end.

(** The [printf "%-16s"] of the usage template: the text, then spaces up to
    a width of 16 characters. *)
Definition pad16 (s : string) : string := s +:+ spaces (16 - rune_count s).

(** [for _, x := range l { body x }] *)
Fixpoint for_range {A : Type} (l : list A) (body : A -> M unit) : M unit :=
  match l with
  | [] => ret tt
  | x :: r => body x ;;; for_range r body
  end.

(** ** The flags of the release commands *)

(** The package-level flag variables that [init] binds to the grammar of
    [release show] and [release create]. *)
Record ReleaseFlags : Type := mkReleaseFlags {
  flagReleaseShowDownloads : bool;
  flagReleaseDraft : bool;
  flagReleasePrerelease : bool;
  flagReleaseMessage : string;
  flagReleaseFile : string;
  flagReleaseCommitish : string;
  flagReleaseAssets : list string
}.

Section Handlers.

Variable env : Env.
Variable flags : ReleaseFlags.

(** ** release show *)

Definition showRelease : M unit :=
  tagName <- LastParam ;;
  (if String.eqb tagName "" then utils_Check (Some "Missing argument TAG") else ret tt) ;;;
  emit EvLocalRepo ;;;
  utils_Check (env_LocalRepo env) ;;;
  project <- checked EvMainProject (env_MainProject env) ;;
  emit (EvNewClient (Host project)) ;;;
  noop <- IsNoop ;;
  (if noop then
     ui_Printf ("Would display information for `" +:+ tagName +:+ "' release" +:+ nl)
   else
     release <- checked (EvFetchRelease project tagName)
                        (env_FetchRelease env project tagName) ;;
     let body := strings_TrimSpace (Body release) in
     ui_Printf (Name release +:+ " (" +:+ TagName release +:+ ")" +:+ nl) ;;;
     (if negb (String.eqb body "") then ui_Printf (nl +:+ body +:+ nl) else ret tt) ;;;
     (if flagReleaseShowDownloads flags then
        ui_Printf (nl +:+ "## Downloads" +:+ nl +:+ nl) ;;;
        for_range (Assets release) (fun asset => ui_Println (DownloadUrl asset)) ;;;
        (if negb (String.eqb (ZipballUrl release) "") then
           ui_Println (ZipballUrl release) ;;;
           ui_Println (TarballUrl release)
         else ret tt)
      else ret tt)) ;;;
  os_Exit 0.

(** ** release create *)

(** The head of the loop body of [uploadAssets]: the asset token is split
    on its first [#] into at most two parts; the first is the file name, the
    second, when there is one, the label. *)
Definition split_asset (asset : string) : string * string :=
  let parts := strings_SplitN asset "#" 2 in
  let asset := nth 0 parts "" in
  let label := if 1 <? Z.of_nat (length parts) then nth 1 parts "" else "" in
  (asset, label).

(** [gh.UploadReleaseAsset(release, asset, label)]: the call reads the
    release it is given; on a nil release that is a nil dereference. *)
Definition UploadReleaseAsset (release : option Release) (asset label : string)
  : M (option error) :=
  emit (EvUploadReleaseAsset release asset label) ;;;
  match release with
  | Some r => ret (env_UploadReleaseAsset env r asset label)
  | None => panic "nil pointer dereference"
  end.

Fixpoint uploadAssets (release : option Release) (assets : list string) : M unit :=
  match assets with
  | [] => ret tt
  | asset :: rest =>
      let label := snd (split_asset asset) in
      let asset := fst (split_asset asset) in
      noop <- IsNoop ;;
      (if noop then
         if String.eqb label "" then
           ui_Errorf ("Would attach release asset `" +:+ asset +:+ "'" +:+ nl)
         else
           ui_Errorf ("Would attach release asset `" +:+ asset +:+ "' with label `"
                      +:+ label +:+ "'" +:+ nl)
       else
         ui_Errorf ("Attaching release asset `" +:+ asset +:+ "'..." +:+ nl) ;;;
         err <- UploadReleaseAsset release asset label ;;
         utils_Check err) ;;;
      uploadAssets release rest
  end.

Definition createRelease : M unit :=
  tagName <- LastParam ;;
  if String.eqb tagName "" then
    utils_Check (Some "Missing argument TAG") ;;;
    ret tt
  else
    emit EvLocalRepo ;;;
    utils_Check (env_LocalRepo env) ;;;
    project <- checked EvCurrentProject (env_CurrentProject env) ;;
    emit (EvNewClient (Host project)) ;;;
    commitish <- (if String.eqb (flagReleaseCommitish flags) "" then
                    checked EvCurrentBranch (env_CurrentBranch env)
                  else ret (flagReleaseCommitish flags)) ;;
    (* [var editor *github.Editor] stays nil: the [:=] of the editor branch
       declares a variable of its own. *)
    let editor : option unit := None in
    tb <- (if negb (String.eqb (flagReleaseMessage flags) "") then
             ret (env_readMsg env (flagReleaseMessage flags))
           else if negb (String.eqb (flagReleaseFile flags) "") then
             checked (EvReadMsgFromFile (flagReleaseMessage flags))
                     (env_readMsgFromFile env (flagReleaseMessage flags))
           else
             emit EvCommentChar ;;;
             let cs := env_CommentChar env in
             message <- checked (EvRenderReleaseTpl cs tagName (project_String project) commitish)
                                (env_renderReleaseTpl env cs tagName (project_String project)
                                                      commitish) ;;
             emit (EvNewEditor message) ;;;
             utils_Check (env_NewEditor env message) ;;;
             checked EvEditTitleAndBody (env_EditTitleAndBody env)) ;;
    let title := fst tb in
    let body := snd tb in
    (if String.eqb title "" then
       utils_Check (Some "Aborting release due to empty release title")
     else ret tt) ;;;
    let params := mkRelease title tagName commitish body
                            (flagReleaseDraft flags) (flagReleasePrerelease flags)
                            [] "" "" "" in
    noop <- IsNoop ;;
    release <- (if noop then
                  ui_Printf ("Would create release `" +:+ title +:+ "' for "
                             +:+ project_String project +:+ " with tag name `"
                             +:+ tagName +:+ "'" +:+ nl) ;;;
                  ret None
                else
                  r <- checked (EvCreateRelease project params)
                               (env_CreateRelease env project params) ;;
                  match editor with
                  | Some _ => defer_ EvEditorDeleteFile
                  | None => ret tt
                  end ;;;
                  ui_Println (HtmlUrl r) ;;;
                  ret (Some r)) ;;
    uploadAssets release (flagReleaseAssets flags) ;;;
    os_Exit 0.

(** ** remote *)

Definition parseRemotePrivateFlag : M bool :=
  i <- IndexOf "-p" ;;
  if negb (i =? -1) then
    Remove i ;;;
    ret true
  else ret false.

Definition transformRemoteArgs : M unit :=
  isPriavte <- parseRemotePrivateFlag ;;
  n <- Size ;;
  owner <- Remove (n - 1) ;;
  emit (EvExpandRemoteUrl owner isPriavte) ;;;
  let url := env_ExpandRemoteUrl env owner isPriavte in
  Append [owner; url].

Definition remote : M unit :=
  n <- Size ;;
  (if 2 <=? n then
     f <- First ;;
     if String.eqb f "add" || String.eqb f "set-url" then transformRemoteArgs
     else ret tt
   else ret tt) ;;;
  argv <- Array ;;
  emit (EvSysExec "remote" argv) ;;;
  utils_Check (env_SysExec env "remote" argv).

(** ** help *)

(** One command of a [{{range}}] of the usage template: a line for a
    command that is runnable and listed, nothing otherwise. *)
Definition usage_entry (c : Command) : string :=
  nl +:+ "    " +:+ pad16 (cmd_Name c) +:+ "  " +:+ cmd_Short c.

Definition usage_item (c : Command) : string :=
  if cmd_Runnable c then
    if cmd_List c then usage_entry c else ""
  else "".

Definition usage_range (cs : list Command) : string :=
  fold_right (fun c acc => usage_item c +:+ acc) "" cs.

Definition usageTemplate (branching remotes github : list Command) : string :=
  "Usage: gh [command] [options] [arguments]" +:+ nl +:+ nl
  +:+ "Branching Commands:" +:+ usage_range branching +:+ nl +:+ nl
  +:+ "Remote Commands:" +:+ usage_range remotes +:+ nl +:+ nl
  +:+ "GitHub Commands:" +:+ usage_range github +:+ nl +:+ nl
  +:+ "See 'gh help [command]' for more information about a command." +:+ nl.

Definition PrintUsage : M unit :=
  emit (EvStdout (usageTemplate (Branching (env_registry env))
                                (RemoteCommands (env_registry env))
                                (GitHub (env_registry env)))).

Definition Usage : M unit :=
  PrintUsage ;;;
  os_Exit 2.

Definition runHelp : M unit :=
  e <- IsEmpty ;;
  if e then PrintUsage
  else
    n <- Size ;;
    (if negb (n =? 1) then log_Fatal (env_log_header env) "too many arguments"
     else ret tt) ;;;
    topic <- First ;;
    match find (fun c => String.eqb (cmd_Name c) topic) (All (env_registry env)) with
    | Some c => emit (EvPrintCommandUsage c)
    | None =>
        emit (EvStderr ("Unknown help topic: " +:+ env_fmt_q env topic
                        +:+ ". Run 'gh help'." +:+ nl)) ;;;
        os_Exit 2
    end.

End Handlers.

(** ** The flag grammar *)

Module Flag.

(** Modelled from the spec: the flag parser behind [cmd.Flag] is not part of
    the sources at hand; section 4.2 of the specification describes it.  The
    declarations below are those of [init]. *)
Inductive Kind : Type := BoolFlag | StringFlag | RepeatedFlag.

Record Decl : Type := mkDecl {
  kind : Kind;
  long : string;
  short : string
}.


(** [cmdRelease.Flag], [cmdShowRelease.Flag] and [cmdCreateRelease.Flag]. *)
Definition releaseGrammar : list Decl :=
  [ mkDecl BoolFlag "include-drafts" "d" ].

Definition showReleaseGrammar : list Decl :=
  [ mkDecl BoolFlag "show-downloads" "d" ].
























End Flag.

(** ** Auxiliary definitions for the statements *)

(** What [utils.Check(err)] leaves in the trace, and how it ends. *)
Definition check_events (err : option error) : list Event :=
  match err with
  | Some e => [EvStderr (e +:+ nl)]
  | None => []
  end.

Definition check_outcome (err : option error) : Outcome unit :=
  match err with
  | Some _ => Exited Check_status
  | None => Returned tt
  end.

(** The commands of a category that the usage template prints. *)
Definition listed (cs : list Command) : list Command :=
  List.filter (fun c => cmd_Runnable c && cmd_List c) cs.

(** The line of the listing for one command: on a line of its own, four
    spaces, the name, spaces up to 16 characters, two spaces, the summary. *)
Definition listing_line (c : Command) : string :=
  nl +:+ "    " +:+ cmd_Name c +:+ spaces (16 - rune_count (cmd_Name c))
  +:+ "  " +:+ cmd_Short c.

(** The lines for the commands of [cs], one after the other. *)
Definition listing (cs : list Command) : string :=
  fold_right (fun c acc => listing_line c +:+ acc) "" cs.

(** The line [createRelease] prints instead of creating the release. *)
Definition would_create (title project tagName : string) : string :=
  "Would create release `" +:+ title +:+ "' for " +:+ project
  +:+ " with tag name `" +:+ tagName +:+ "'" +:+ nl.

(** The line [uploadAssets] prints instead of uploading one asset. *)
Definition would_attach (token : string) : Event :=
  let asset := fst (split_asset token) in
  let label := snd (split_asset token) in
  if String.eqb label "" then
    EvStderr ("Would attach release asset `" +:+ asset +:+ "'" +:+ nl)
  else
    EvStderr ("Would attach release asset `" +:+ asset +:+ "' with label `"
              +:+ label +:+ "'" +:+ nl).

(** The events of the upload loop on a created release, up to and including
    the first upload that fails, and how the loop ends. *)
Fixpoint upload_trace (env : Env) (r : Release) (assets : list string)
  : list Event * Outcome unit :=
  match assets with
  | [] => ([], Returned tt)
  | token :: rest =>
      let asset := fst (split_asset token) in
      let label := snd (split_asset token) in
      let attempt := [EvStderr ("Attaching release asset `" +:+ asset +:+ "'..." +:+ nl);
                      EvUploadReleaseAsset (Some r) asset label] in
      match env_UploadReleaseAsset env r asset label with
      | Some e => (attempt ++ [EvStderr (e +:+ nl)], Exited Check_status)
      | None => (attempt ++ fst (upload_trace env r rest), snd (upload_trace env r rest))
      end
  end.

(** [s] contains [sub]. *)
Definition contains (s sub : string) : Prop :=
  exists before after, s = before +:+ sub +:+ after.

(** The character occurs in the string. *)
Fixpoint occurs (c : ascii) (s : string) : bool :=
  match s with
  | EmptyString => false
  | String x r => Ascii.eqb x c || occurs c r
  end.

(** ** A sample environment

    Every collaborator answers; the upload of [broken.zip] is refused. *)
Definition sample_project : Project := mkProject "github.com" "octocat/hello".

Definition sample_registry : Registry :=
  let cmd_remote := mkCommand "remote" "View and manage a set of remote repositories" true true in
  let cmd_help := mkCommand "help" "Show help" true true in
  let cmd_router := mkCommand "router" "Routes to its actions" false true in
  mkRegistry [cmd_router] [cmd_remote] [cmd_help] [cmd_router; cmd_remote; cmd_help].

Definition sample_env : Env :=
  mkEnv None (Ok sample_project) (Ok sample_project) (Ok "master")
        (fun _ _ => Err "Not Found")
        (fun _ params =>
           Ok (mkRelease (Name params) (TagName params) (TargetCommitish params)
                         (Body params) (Draft params) (Prerelease params) [] "" ""
                         "https://github.com/octocat/hello/releases/v1.0"))
        (fun _ asset _ =>
           if String.eqb asset "broken.zip" then Some "upload refused" else None)
        "#"
        (fun _ _ _ _ => Ok "template")
        (fun _ => None)
        (Ok ("Edited title", "Edited body"))
        (fun m => (m, ""))
        (fun f => if String.eqb f "" then Err "open : no such file or directory"
                  else Ok ("Title from " +:+ f, ""))
        (fun owner private =>
           (if private then "git@github.com:" else "git://github.com/")
           +:+ owner +:+ "/hello.git")
        (fun _ _ => None)
        "2013/06/01 12:00:00 "
        (fun s => s)
        sample_registry.

Definition no_flags : ReleaseFlags := mkReleaseFlags false false false "" "" "" [].

(** An environment in which the editor comes back with an empty title. *)
Definition untitled_env : Env :=
  mkEnv None (Ok sample_project) (Ok sample_project) (Ok "master")
        (env_FetchRelease sample_env) (env_CreateRelease sample_env)
        (env_UploadReleaseAsset sample_env) "#"
        (env_renderReleaseTpl sample_env) (env_NewEditor sample_env)
        (Ok ("", "")) (env_readMsg sample_env)
        (env_readMsgFromFile sample_env) (env_ExpandRemoteUrl sample_env)
        (env_SysExec sample_env) (env_log_header sample_env) (env_fmt_q sample_env)
        sample_registry.

Definition attach_flags : ReleaseFlags :=
  mkReleaseFlags false false false "" "" "" ["hub.tgz"; "docs.zip#Docs"].

(** Events that neither print nor reach the hosting API: the lookups in the
    local repository, the editor, the message file. *)
Definition is_lookup (e : Event) : bool := negb (is_print e) && negb (is_api_call e).

(** [m; os.Exit(0)], seen from the outcome of [m]. *)
Definition then_exit (status : Z) (o : Outcome unit) : Outcome unit :=
  match o with
  | Returned _ => Exited status
  | Exited n => Exited n
  | Panicked msg => Panicked msg
  end.

(** The release description [createRelease] builds at lines 222 to 229. *)
Definition release_params (flags : ReleaseFlags) (title tagName commitish body : string)
  : Release :=
  mkRelease title tagName commitish body
            (flagReleaseDraft flags) (flagReleasePrerelease flags) [] "" "" "".

Definition is_create (e : Event) : bool :=
  match e with
  | EvCreateRelease _ _ => true
  | _ => false
  end.

Definition message_flags : ReleaseFlags :=
  mkReleaseFlags false false false "Release 1.0" "" ""
                 ["hub.tgz"; "broken.zip#Windows"; "late.txt"].

Definition file_flags : ReleaseFlags :=
  mkReleaseFlags false false false "" "notes.md" "" [].

(** ** release (the listing)

    [listReleases] is the handler of the bare [release] command.  It calls
    one collaborator the other handlers do not call, [gh.FetchReleases]; its
    trace has the events of the other handlers and that call. *)
Module Listing.

Inductive ListEvent : Type :=
| Other (e : Event)
| EvFetchReleases (p : Project).

Record ListState : Type := mkListState {
  ls_args : Args;
  ls_trace : list ListEvent
}.

Definition LM (A : Type) : Type := ListState -> ListState * Outcome A.

Definition lret {A : Type} (a : A) : LM A := fun s => (s, Returned a).

Definition lbind {A B : Type} (m : LM A) (k : A -> LM B) : LM B :=
  fun s =>
    match m s with
    | (s', Returned a) => k a s'
    | (s', Exited n) => (s', Exited n)
    | (s', Panicked msg) => (s', Panicked msg)
    end.

(** A step of the handler monad, run inside the listing. *)
Definition lift {A : Type} (m : M A) : LM A :=
  fun s =>
    let r := m (mkState (ls_args s) [] []) in
    (mkListState (st_args (fst r)) (ls_trace s ++ map Other (st_trace (fst r))), snd r).

(** [releases, err := gh.FetchReleases(project); utils.Check(err)] *)
Definition FetchReleases (answer : Project -> result (list Release)) (project : Project)
  : LM (list Release) :=
  fun s =>
    let s' := mkListState (ls_args s) (ls_trace s ++ [EvFetchReleases project]) in
    match answer project with
    | Ok releases => (s', Returned releases)
    | Err e => lbind (lift (utils_Check (Some e))) (fun _ => lret []) s'
    end.

Definition listReleases (env : Env) (flagReleaseIncludeDrafts : bool)
  (answer : Project -> result (list Release)) : LM unit :=
  lbind (lift (emit EvLocalRepo ;;; utils_Check (env_LocalRepo env))) (fun _ =>
  lbind (lift (checked EvMainProject (env_MainProject env))) (fun project =>
  lbind (lift (emit (EvNewClient (Host project)))) (fun _ =>
  lbind (lift IsNoop) (fun noop =>
  lbind (if noop then
           lift (ui_Printf ("Would request list of releases for "
                            +:+ project_String project +:+ nl))
         else
           lbind (FetchReleases answer project) (fun releases =>
           lift (for_range releases (fun release =>
                   if negb (Draft release) || flagReleaseIncludeDrafts then
                     ui_Println (TagName release)
                   else ret tt)))) (fun _ =>
  lift (os_Exit 0)))))).

Definition run_listing {A : Type} (m : LM A) (args : Args) : ListState * Outcome A :=
  m (mkListState args []).

Definition listing_stdout (t : list ListEvent) : list string :=
  flat_map (fun e => match e with Other (EvStdout s) => [s] | _ => [] end) t.

Definition is_fetch (e : ListEvent) : bool :=
  match e with
  | EvFetchReleases _ => true
  | _ => false
  end.

End Listing.

(** ** Auxiliary definitions for the further properties *)

(** The releases [listReleases] prints: those that are not drafts, or all of
    them with [--include-drafts]. *)
Definition shown (includeDrafts : bool) (releases : list Release) : list Release :=
  List.filter (fun r => negb (Draft r) || includeDrafts) releases.

(** What [showRelease] prints under [--show-downloads], line by line. *)
Definition download_lines (release : Release) : list string :=
  [nl +:+ "## Downloads" +:+ nl +:+ nl]
  ++ map (fun asset => DownloadUrl asset +:+ nl) (Assets release)
  ++ (if String.eqb (ZipballUrl release) "" then []
      else [ZipballUrl release +:+ nl; TarballUrl release +:+ nl]).

(** What [showRelease] prints for a release, line by line. *)
Definition show_lines (showDownloads : bool) (release : Release) : list string :=
  [Name release +:+ " (" +:+ TagName release +:+ ")" +:+ nl]
  ++ (if String.eqb (strings_TrimSpace (Body release)) "" then []
      else [nl +:+ strings_TrimSpace (Body release) +:+ nl])
  ++ (if showDownloads then download_lines release else []).

(** A text made of white-space characters only. *)
Inductive white : string -> Prop :=
| white_empty : white ""
| white_1 (a : ascii) (s : string) :
    is_space a = true -> white s -> white (String a s)
| white_2 (a b : ascii) (s : string) :
    is_space2 a b = true -> white s -> white (String a (String b s))
| white_3 (a b c : ascii) (s : string) :
    is_space3 a b c = true -> white s -> white (String a (String b (String c s))).

(** A text of ASCII characters only. *)
Fixpoint ascii_text (s : string) : bool :=
  match s with
  | EmptyString => true
  | String c r => (nat_of_ascii c <? 128)%nat && ascii_text r
  end.

(** U+00A0, the no-break space, in UTF-8. *)
Definition nbsp : string :=
  String (ascii_of_nat 194) (String (ascii_of_nat 160) EmptyString).

(** Events of the two other sources of the release message: the message
    file and the editor. *)
Definition is_message_source (e : Event) : bool :=
  match e with
  | EvReadMsgFromFile _ | EvCommentChar | EvRenderReleaseTpl _ _ _ _
  | EvNewEditor _ | EvEditTitleAndBody => true
  | _ => false
  end.

Definition commitish_flags : ReleaseFlags :=
  mkReleaseFlags false true true "Release 1.0" "notes.md" "stable" [].

(** The calls of [UploadReleaseAsset] in a trace, by file name and label. *)
Definition uploads_of (t : list Event) : list (string * string) :=
  flat_map (fun e => match e with
                     | EvUploadReleaseAsset _ asset label => [(asset, label)]
                     | _ => []
                     end) t.

(** The upload of the asset named by [token] to [r] succeeds. *)
Definition upload_ok (env : Env) (r : Release) (token : string) : bool :=
  match env_UploadReleaseAsset env r (fst (split_asset token)) (snd (split_asset token)) with
  | None => true
  | Some _ => false
  end.

(** An environment in which the hosting API refuses to create a release and
    the external binary cannot be launched. *)
Definition refusing_env : Env :=
  mkEnv None (Ok sample_project) (Ok sample_project) (Ok "master")
        (fun _ _ => Err "Not Found") (fun _ _ => Err "Validation Failed")
        (env_UploadReleaseAsset sample_env) "#"
        (env_renderReleaseTpl sample_env) (env_NewEditor sample_env)
        (env_EditTitleAndBody sample_env) (env_readMsg sample_env)
        (env_readMsgFromFile sample_env) (env_ExpandRemoteUrl sample_env)
        (fun _ _ => Some "exec: git: not found") "" (fun s => s) sample_registry.

Definition is_exec (e : Event) : bool :=
  match e with
  | EvSysExec _ _ => true
  | _ => false
  end.

(** What was written to standard error. *)
Definition stderr_of (t : list Event) : list string :=
  flat_map (fun e => match e with EvStderr s => [s] | _ => [] end) t.

(** * Properties *)

(** Proof automation: the handlers are unfolded down to the monad, and
    integer tests are settled by rewriting, not by evaluation. *)
#[local] Arguments Z.of_nat : simpl never.
#[local] Arguments Z.eqb : simpl never.
#[local] Arguments Z.leb : simpl never.
#[local] Arguments Z.ltb : simpl never.
#[local] Arguments Z.sub : simpl never.
#[local] Arguments Z.add : simpl never.
#[local] Arguments Z.to_nat : simpl never.
#[local] Arguments String.append : simpl never.

Ltac unfold_go :=
  unfold run, init_state, IsEmpty, Size, First, IndexOf, Remove, Append, LastParam,
    Array, IsNoop, ui_Printf, ui_Println, ui_Errorf, log_Fatal, checked, utils_Check,
    put_params, get_args, emit, defer_, os_Exit, panic, bind, ret in *.

Lemma index_of_ge tok l : -1 <= index_of tok l.
Proof.
  induction l as [|x r IH]; cbn; [lia|].
  destruct (String.eqb x tok); [lia|].
  destruct (index_of tok r <? 0) eqn:E; [lia|]. apply Z.ltb_ge in E. lia.
Qed.

Lemma index_of_absent tok l : index_of tok l = -1 <-> ~ In tok l.
Proof.
  induction l as [|x r IH]; cbn.
  - tauto.
  - destruct (String.eqb x tok) eqn:E.
    + apply String.eqb_eq in E. split; [lia | intros H; exfalso; apply H; auto].
    + apply String.eqb_neq in E.
      pose proof (index_of_ge tok r) as G.
      destruct (index_of tok r <? 0) eqn:L.
      * apply Z.ltb_lt in L. assert (index_of tok r = -1) as Hm by lia.
        split; [intros _ [H|H]; [congruence | apply IH in Hm; tauto] | reflexivity].
      * apply Z.ltb_ge in L. split; [lia|].
        intros H. assert (~ In tok r) as Hn by tauto. apply IH in Hn. lia.
Qed.

Lemma index_of_present tok l :
  In tok l ->
  exists a b, l = a ++ tok :: b /\ ~ In tok a /\ index_of tok l = Z.of_nat (length a).
Proof.
  induction l as [|x r IH]; cbn; [tauto|].
  intros H. destruct (String.eqb x tok) eqn:E.
  - apply String.eqb_eq in E. subst x. exists [], r. cbn. auto.
  - apply String.eqb_neq in E. destruct H as [H|H]; [congruence|].
    destruct (IH H) as (a & b & -> & Ha & Hi).
    exists (x :: a), b. rewrite Hi. cbn [length].
    destruct (Z.of_nat (length a) <? 0) eqn:L; [apply Z.ltb_lt in L; lia|].
    split; [reflexivity|]. split; [|lia].
    cbn. intros [F|F]; [congruence | tauto].
Qed.

Lemma Remove_middle (a : list string) x b noop t d :
  Remove (Z.of_nat (length a)) (mkState (mkArgs (a ++ x :: b) noop) t d)
  = (mkState (mkArgs (a ++ b) noop) t d, Returned x).
Proof.
  unfold_go. cbn.
  assert (E1 : (Z.of_nat (length a) <? 0) = false) by (apply Z.ltb_ge; lia).
  assert (E2 : (Z.of_nat (length (a ++ x :: b)) <=? Z.of_nat (length a)) = false).
  { apply Z.leb_gt. rewrite length_app. cbn [length]. lia. }
  rewrite E1, E2. cbn. rewrite Nat2Z.id.
  rewrite list_lookup_middle by reflexivity. cbn.
  rewrite delete_middle. reflexivity.
Qed.

Lemma bind_Returned {A B : Type} (m : M A) (k : A -> M B) s s' a :
  m s = (s', Returned a) -> bind m k s = k a s'.
Proof. intros H. unfold bind. rewrite H. reflexivity. Qed.

Lemma IndexOf_eq tok s : IndexOf tok s = (s, Returned (index_of tok (Params (st_args s)))).
Proof. reflexivity. Qed.

Lemma Size_eq s : Size s = (s, Returned (Z.of_nat (length (Params (st_args s))))).
Proof. reflexivity. Qed.

Lemma parseRemotePrivateFlag_absent (ps : list string) noop t d :
  ~ In "-p" ps ->
  parseRemotePrivateFlag (mkState (mkArgs ps noop) t d)
  = (mkState (mkArgs ps noop) t d, Returned false).
Proof.
  intros H. apply index_of_absent in H.
  unfold parseRemotePrivateFlag.
  rewrite (bind_Returned _ _ _ _ _ (IndexOf_eq _ _)). cbn [st_args Params].
  rewrite H. reflexivity.
Qed.

Lemma parseRemotePrivateFlag_present (a b : list string) noop t d :
  ~ In "-p" a ->
  parseRemotePrivateFlag (mkState (mkArgs (a ++ "-p" :: b) noop) t d)
  = (mkState (mkArgs (a ++ b) noop) t d, Returned true).
Proof.
  intros H.
  destruct (index_of_present "-p" (a ++ "-p" :: b)) as (a' & b' & E & Ha' & Hi).
  { apply in_or_app. right. left. reflexivity. }
  assert (Hlen : length a' = length a).
  { destruct (Nat.lt_trichotomy (length a') (length a)) as [L|[L|L]]; [|exact L|].
    - exfalso. apply H. apply list_elem_of_In. apply list_elem_of_lookup. exists (length a').
      rewrite <- (lookup_app_l a ("-p" :: b)) by exact L.
      rewrite E. apply list_lookup_middle. reflexivity.
    - exfalso. apply Ha'. apply list_elem_of_In. apply list_elem_of_lookup. exists (length a).
      rewrite <- (lookup_app_l a' ("-p" :: b')) by exact L.
      rewrite <- E. apply list_lookup_middle. reflexivity. }
  unfold parseRemotePrivateFlag.
  rewrite (bind_Returned _ _ _ _ _ (IndexOf_eq _ _)). cbn [st_args Params].
  rewrite Hi, Hlen.
  assert (En : (Z.of_nat (length a) =? -1) = false) by (apply Z.eqb_neq; lia).
  rewrite En. cbn [negb].
  rewrite (bind_Returned _ _ _ _ _ (Remove_middle _ _ _ _ _ _)). reflexivity.
Qed.

Lemma transformRemoteArgs_eq env (ps kept : list string) owner private noop t d :
  parseRemotePrivateFlag (mkState (mkArgs ps noop) t d)
  = (mkState (mkArgs (kept ++ [owner]) noop) t d, Returned private) ->
  transformRemoteArgs env (mkState (mkArgs ps noop) t d)
  = (mkState (mkArgs (kept ++ [owner; env_ExpandRemoteUrl env owner private]) noop)
             (t ++ [EvExpandRemoteUrl owner private]) d, Returned tt).
Proof.
  intros H. unfold transformRemoteArgs.
  rewrite (bind_Returned _ _ _ _ _ H).
  rewrite (bind_Returned _ _ _ _ _ (Size_eq _)). cbn [st_args Params].
  replace (Z.of_nat (length (kept ++ [owner])) - 1) with (Z.of_nat (length kept))
    by (rewrite length_app; cbn [length]; lia).
  rewrite (bind_Returned _ _ _ _ _ (Remove_middle _ _ _ _ _ _)).
  unfold_go. cbn. rewrite ?app_nil_r. reflexivity.
Qed.


(** What a run of [remote] does, whatever the latch: the tokens [argv] it
    hands to the external binary and the events [pre] before that. *)
Lemma remote_shape env (ps : list string) :
  exists (pre : list Event) (argv : list string),
    (forall noop,
        run (remote env) (mkArgs ps noop)
        = (mkState (mkArgs argv noop)
                   (pre ++ EvSysExec "remote" argv
                        :: check_events (env_SysExec env "remote" argv)) [],
           check_outcome (env_SysExec env "remote" argv))) /\
    (((2 <= length ps)%nat /\ (hd "" ps = "add" \/ hd "" ps = "set-url") /\
      exists (private : bool) (kept : list string) (owner : string),
        ((private = false /\ ~ In "-p" ps /\ ps = kept ++ [owner]) \/
         (private = true /\
          exists a b, ps = a ++ "-p" :: b /\ ~ In "-p" a /\ a ++ b = kept ++ [owner])) /\
        pre = [EvExpandRemoteUrl owner private] /\
        argv = kept ++ [owner; env_ExpandRemoteUrl env owner private])
     \/ (~ ((2 <= length ps)%nat /\ (hd "" ps = "add" \/ hd "" ps = "set-url")) /\
         pre = [] /\ argv = ps)).
Proof.
  destruct (Z.leb_spec 2 (Z.of_nat (length ps))) as [Hlen | Hlen].
  - assert (Hsz : (2 <=? Z.of_nat (length ps)) = true) by (apply Z.leb_le; lia).
    assert (forall noop, First (mkState (mkArgs ps noop) [] [])
                         = (mkState (mkArgs ps noop) [] [], Returned (hd "" ps))) as HF.
    { intros noop. destruct ps; [cbn in Hlen; lia | reflexivity]. }
    destruct (String.eqb (hd "" ps) "add" || String.eqb (hd "" ps) "set-url")%bool eqn:Hkw.
    + assert (Hfirst : hd "" ps = "add" \/ hd "" ps = "set-url").
      { apply orb_true_iff in Hkw as [H|H]; apply String.eqb_eq in H; auto. }
      assert (Hsplit : exists private kept owner,
                 ((private = false /\ ~ In "-p" ps /\ ps = kept ++ [owner]) \/
                  (private = true /\
                   exists a b, ps = a ++ "-p" :: b /\ ~ In "-p" a
                               /\ a ++ b = kept ++ [owner])) /\
                 forall noop,
                   parseRemotePrivateFlag (mkState (mkArgs ps noop) [] [])
                   = (mkState (mkArgs (kept ++ [owner]) noop) [] [], Returned private)).
      { destruct (in_dec string_dec "-p" ps) as [Hin | Hout].
        - destruct (index_of_present _ _ Hin) as (a & b & E & Ha & _).
          assert (Hne : a ++ b <> []).
          { intros F. apply app_eq_nil in F as [-> ->]. subst ps. cbn in Hlen. lia. }
          destruct (exists_last Hne) as (kept & owner & Ek).
          exists true, kept, owner. split.
          + right. split; [reflexivity|]. exists a, b. auto.
          + intros noop. subst ps. rewrite <- Ek.
            apply parseRemotePrivateFlag_present. exact Ha.
        - assert (Hne : ps <> []) by (intros ->; cbn in Hlen; lia).
          destruct (exists_last Hne) as (kept & owner & Ek).
          exists false, kept, owner. split.
          + left. auto.
          + intros noop. rewrite <- Ek. apply parseRemotePrivateFlag_absent. exact Hout. }
      destruct Hsplit as (private & kept & owner & Hshape & Hparse).
      exists [EvExpandRemoteUrl owner private],
             (kept ++ [owner; env_ExpandRemoteUrl env owner private]).
      split.
      * intros noop.
        pose proof (transformRemoteArgs_eq env _ _ _ _ _ _ _ (Hparse noop)) as Ht.
        unfold run, init_state, remote.
        rewrite (bind_Returned _ _ _ _ _ (Size_eq _)). cbn [st_args Params].
        rewrite Hsz. cbv beta iota.
        erewrite bind_Returned;
          [| rewrite (bind_Returned _ _ _ _ _ (HF noop)), Hkw; exact Ht ].
        unfold_go. cbn.
        destruct (env_SysExec env "remote"
                    (kept ++ [owner; env_ExpandRemoteUrl env owner private]));
          reflexivity.
      * left. split; [lia|]. split; [exact Hfirst|].
        exists private, kept, owner. auto.
    + exists [], ps. split.
      2:{ right. split; [|auto]. intros [_ [H|H]]; rewrite H in Hkw; discriminate. }
      intros noop. unfold run, init_state, remote.
      rewrite (bind_Returned _ _ _ _ _ (Size_eq _)). cbn [st_args Params].
      rewrite Hsz. cbv beta iota.
      erewrite bind_Returned;
        [| rewrite (bind_Returned _ _ _ _ _ (HF noop)), Hkw; reflexivity ].
      unfold_go. cbn. destruct (env_SysExec env "remote" ps); reflexivity.
  - assert (Hsz : (2 <=? Z.of_nat (length ps)) = false) by (apply Z.leb_gt; lia).
    exists [], ps. split; [|right; split; [lia|auto]].
    intros noop. unfold run, init_state, remote.
    rewrite (bind_Returned _ _ _ _ _ (Size_eq _)). cbn [st_args Params].
    rewrite Hsz. unfold_go. cbn. destruct (env_SysExec env "remote" ps); reflexivity.
Qed.

(** ** remote *)

(** C1.  When [remote] is called with at least two tokens of which the first
    is [add] or [set-url], the first [-p] token, if there is one, is removed
    and recorded as the boolean [private]; the last remaining token [owner]
    is removed; [owner] is resolved to a URL with [private]; and the external
    binary receives the kept tokens, in their original order, followed by
    [owner] and the URL. *)
Theorem remote_expands_owner env (ps : list string) noop :
  (2 <= length ps)%nat ->
  hd "" ps = "add" \/ hd "" ps = "set-url" ->
  exists (private : bool) (kept : list string) (owner : string),
    ((private = false /\ ~ In "-p" ps /\ ps = kept ++ [owner]) \/
     (private = true /\
      exists a b, ps = a ++ "-p" :: b /\ ~ In "-p" a /\ a ++ b = kept ++ [owner])) /\
    let url := env_ExpandRemoteUrl env owner private in
    let forwarded := kept ++ [owner; url] in
    let r := run (remote env) (mkArgs ps noop) in
    args_of r = forwarded /\
    trace_of r
    = [EvExpandRemoteUrl owner private; EvSysExec "remote" forwarded]
      ++ check_events (env_SysExec env "remote" forwarded).
Proof.
  intros Hlen Hfirst.
  destruct (remote_shape env ps) as (pre & argv & Hrun & [Hyes | Hno]).
  - destruct Hyes as (_ & _ & private & kept & owner & Hshape & -> & ->).
    exists private, kept, owner. split; [exact Hshape|].
    cbv zeta. rewrite Hrun. split; reflexivity.
  - exfalso. apply (proj1 Hno). auto.
Qed.

Lemma remote_expands_owner_witness :
  (2 <= length ["add"; "-p"; "octocat"])%nat /\
  (hd "" ["add"; "-p"; "octocat"] = "add" \/ hd "" ["add"; "-p"; "octocat"] = "set-url") /\
  exists (private : bool) (kept : list string) (owner : string),
    ((private = false /\ ~ In "-p" ["add"; "-p"; "octocat"]
      /\ ["add"; "-p"; "octocat"] = kept ++ [owner]) \/
     (private = true /\
      exists a b, ["add"; "-p"; "octocat"] = a ++ "-p" :: b /\ ~ In "-p" a
                  /\ a ++ b = kept ++ [owner])) /\
    let url := env_ExpandRemoteUrl sample_env owner private in
    let forwarded := kept ++ [owner; url] in
    let r := run (remote sample_env) (mkArgs ["add"; "-p"; "octocat"] false) in
    args_of r = forwarded /\
    trace_of r
    = [EvExpandRemoteUrl owner private; EvSysExec "remote" forwarded]
      ++ check_events (env_SysExec sample_env "remote" forwarded).
Proof.
  split; [cbn; lia|]. split; [left; reflexivity|].
  apply (remote_expands_owner sample_env ["add"; "-p"; "octocat"] false).
  - cbn; lia.
  - left; reflexivity.
Defined.

(** C6, as the handler has it.  [remote] does not read the no-op latch: with
    the latch set it does what it does without it, and that always includes
    running the external binary on the container; it prints nothing to
    standard output. *)
Theorem remote_ignores_noop env (ps : list string) noop :
  let r := run (remote env) (mkArgs ps noop) in
  let r0 := run (remote env) (mkArgs ps false) in
  trace_of r = trace_of r0 /\
  outcome_of r = outcome_of r0 /\
  args_of r = args_of r0 /\
  In (EvSysExec "remote" (args_of r)) (trace_of r) /\
  stdout_of (trace_of r) = [].
Proof.
  destruct (remote_shape env ps) as (pre & argv & Hrun & Hpre).
  cbv zeta. rewrite (Hrun noop), (Hrun false).
  unfold trace_of, outcome_of, args_of. cbn [fst snd st_trace st_args Params].
  repeat split.
  - apply in_or_app. right. left. reflexivity.
  - assert (Hp : stdout_of pre = []).
    { destruct Hpre as [(_ & _ & private & kept & owner & _ & -> & _) | (_ & -> & _)];
        reflexivity. }
    unfold stdout_of in *. rewrite flat_map_app, Hp. cbn.
    destruct (env_SysExec env "remote" argv); reflexivity.
Qed.

(** With the latch set, [remote add octocat] still resolves the URL and
    still runs the external binary, and describes nothing. *)
Lemma remote_noop_still_executes :
  let r := run (remote sample_env) (mkArgs ["add"; "octocat"] true) in
  In (EvExpandRemoteUrl "octocat" false) (trace_of r) /\
  In (EvSysExec "remote" ["add"; "octocat"; "git://github.com/octocat/hello.git"])
     (trace_of r) /\
  stdout_of (trace_of r) = [].
Proof. vm_compute. auto. Qed.

(** ** release show, release create: the missing tag *)


(** ** help *)

(** C4, as the handler has it.  With more than one argument, [runHelp]
    reports "too many arguments" on standard error through [log.Fatal],
    which ends the process with status 1. *)
Theorem help_too_many_arguments env (ps : list string) noop :
  (1 < length ps)%nat ->
  run (runHelp env) (mkArgs ps noop)
  = (mkState (mkArgs ps noop)
             [EvStderr (env_log_header env +:+ "too many arguments" +:+ nl)] [],
     Exited 1).
Proof.
  intros H.
  assert (E0 : (Z.of_nat (length ps) =? 0) = false) by (apply Z.eqb_neq; lia).
  assert (E1 : (Z.of_nat (length ps) =? 1) = false) by (apply Z.eqb_neq; lia).
  unfold runHelp. unfold_go. cbn. rewrite E0. cbn. rewrite E1. cbn.
  reflexivity.
Qed.

Lemma help_too_many_arguments_witness :
  (1 < length ["remote"; "release"])%nat /\
  run (runHelp sample_env) (mkArgs ["remote"; "release"] false)
  = (mkState (mkArgs ["remote"; "release"] false)
             [EvStderr (env_log_header sample_env +:+ "too many arguments" +:+ nl)] [],
     Exited 1).
Proof.
  split; [cbn; lia|].
  apply (help_too_many_arguments sample_env ["remote"; "release"] false). cbn; lia.
Defined.

(** [help remote release] does not end with status 2. *)
Lemma help_too_many_arguments_not_2 :
  outcome_of (run (runHelp sample_env) (mkArgs ["remote"; "release"] false)) <> Exited 2.
Proof. vm_compute. discriminate. Qed.

Lemma string_append_assoc (a b c : string) : (a +:+ b) +:+ c = a +:+ b +:+ c.
Proof.
  induction a as [|x a IH]; [reflexivity|].
  change (String x a +:+ b) with (String x (a +:+ b)).
  change (String x (a +:+ b) +:+ c) with (String x ((a +:+ b) +:+ c)).
  rewrite IH. reflexivity.
Qed.

Lemma usage_range_listed (cs : list Command) : usage_range cs = listing (listed cs).
Proof.
  unfold usage_range, listing, listed.
  induction cs as [|c cs IH]; [reflexivity|].
  cbn [fold_right List.filter]. rewrite IH. unfold usage_item.
  destruct (cmd_Runnable c), (cmd_List c); try reflexivity.
  cbn [andb fold_right]. f_equal.
  unfold usage_entry, listing_line, pad16. rewrite !string_append_assoc. reflexivity.
Qed.

Lemma listing_app (l1 l2 : list Command) : listing (l1 ++ l2) = listing l1 +:+ listing l2.
Proof.
  unfold listing. induction l1 as [|c l1 IH]; [reflexivity|].
  cbn [app fold_right]. rewrite IH, string_append_assoc. reflexivity.
Qed.

Lemma listed_sublist (cs : list Command) : sublist (listed cs) cs.
Proof.
  induction cs as [|c cs IH]; cbn; [constructor|].
  destruct (cmd_Runnable c && cmd_List c)%bool; constructor; exact IH.
Qed.

Lemma listed_In (cs : list Command) (c : Command) :
  In c (listed cs) <-> In c cs /\ cmd_Runnable c = true /\ cmd_List c = true.
Proof.
  unfold listed. rewrite List.filter_In, andb_true_iff. reflexivity.
Qed.

Lemma listed_once (cs : list Command) (c : Command) :
  NoDup cs -> In c cs -> cmd_Runnable c = true -> cmd_List c = true ->
  exists l1 l2, listed cs = l1 ++ c :: l2 /\ ~ In c l1 /\ ~ In c l2.
Proof.
  intros Hnd Hin Hr Hl.
  assert (Hin' : In c (listed cs)).
  { apply List.filter_In. split; [exact Hin|]. rewrite Hr, Hl. reflexivity. }
  assert (Hnd' : List.NoDup (listed cs)).
  { apply List.NoDup_filter. apply NoDup_ListNoDup. exact Hnd. }
  destruct (in_split _ _ Hin') as (l1 & l2 & E).
  exists l1, l2. split; [exact E|].
  rewrite E in Hnd'. apply List.NoDup_remove_2 in Hnd'.
  split; intros F; apply Hnd'; apply in_or_app; auto.
Qed.

(** C7, as the template has it.  [help] with no argument prints the usage
    text once on standard output and returns, which ends the process with
    status 0.  Under each category title the text has one line for each
    command of the category that is both runnable and listed, in
    registration order, and no other line; the line is the name, padded
    with spaces to 16 characters, and the summary.  A command registered
    once in its category that is runnable and listed has its line exactly
    once. *)
Theorem help_lists_runnable_listed env noop :
  let reg := env_registry env in
  let r := run (runHelp env) (mkArgs [] noop) in
  trace_of r
  = [EvStdout ("Usage: gh [command] [options] [arguments]" +:+ nl +:+ nl
               +:+ "Branching Commands:" +:+ listing (listed (Branching reg)) +:+ nl +:+ nl
               +:+ "Remote Commands:" +:+ listing (listed (RemoteCommands reg)) +:+ nl +:+ nl
               +:+ "GitHub Commands:" +:+ listing (listed (GitHub reg)) +:+ nl +:+ nl
               +:+ "See 'gh help [command]' for more information about a command."
               +:+ nl)] /\
  outcome_of r = Returned tt /\
  process_status (outcome_of r) = 0 /\
  listing [] = "" /\
  (forall l1 c l2,
      listing (l1 ++ c :: l2)
      = listing l1
        +:+ (nl +:+ "    " +:+ cmd_Name c +:+ spaces (16 - rune_count (cmd_Name c))
             +:+ "  " +:+ cmd_Short c)
        +:+ listing l2) /\
  (forall cs,
      sublist (listed cs) cs /\
      forall c, In c (listed cs) <-> In c cs /\ cmd_Runnable c = true /\ cmd_List c = true) /\
  (forall cs c,
      NoDup cs -> In c cs -> cmd_Runnable c = true -> cmd_List c = true ->
      exists l1 l2, listed cs = l1 ++ c :: l2 /\ ~ In c l1 /\ ~ In c l2).
Proof.
  cbv zeta. split; [|split; [|split; [|split; [|split; [|split]]]]].
  - unfold trace_of, run, init_state, runHelp, PrintUsage, usageTemplate. unfold_go. cbn.
    rewrite !usage_range_listed. reflexivity.
  - reflexivity.
  - reflexivity.
  - reflexivity.
  - intros l1 c l2. rewrite listing_app. reflexivity.
  - intros cs. split; [apply listed_sublist | apply listed_In].
  - apply listed_once.
Qed.

Lemma help_lists_runnable_listed_witness :
  let cs := RemoteCommands sample_registry in
  let c := mkCommand "remote" "View and manage a set of remote repositories" true true in
  NoDup cs /\ In c cs /\ cmd_Runnable c = true /\ cmd_List c = true /\
  exists l1 l2, listed cs = l1 ++ c :: l2 /\ ~ In c l1 /\ ~ In c l2.
Proof.
  cbv zeta.
  assert (Hnd : NoDup (RemoteCommands sample_registry)).
  { cbn. apply NoDup_singleton. }
  assert (Hin : In (mkCommand "remote" "View and manage a set of remote repositories"
                              true true)
                   (RemoteCommands sample_registry)).
  { cbn. left. reflexivity. }
  repeat (split; [first [exact Hnd | exact Hin | reflexivity] |]).
  destruct (help_lists_runnable_listed sample_env false) as (_ & _ & _ & _ & _ & _ & H).
  apply H; [exact Hnd | exact Hin | reflexivity | reflexivity].
Defined.

(** A router-only command is registered in its category and marked
    listable, yet the usage text has no line for it: nothing stands under
    "Branching Commands:". *)
Lemma help_omits_listable_router :
  let reg := env_registry sample_env in
  let router := mkCommand "router" "Routes to its actions" false true in
  In router (Branching reg) /\
  cmd_List router = true /\
  stdout_of (trace_of (run (runHelp sample_env) (mkArgs [] false)))
  = ["Usage: gh [command] [options] [arguments]" +:+ nl +:+ nl
     +:+ "Branching Commands:" +:+ nl +:+ nl
     +:+ "Remote Commands:" +:+ nl
     +:+ "    remote            View and manage a set of remote repositories" +:+ nl +:+ nl
     +:+ "GitHub Commands:" +:+ nl
     +:+ "    help              Show help" +:+ nl +:+ nl
     +:+ "See 'gh help [command]' for more information about a command." +:+ nl].
Proof. cbv zeta. split; [left; reflexivity|]. split; reflexivity. Qed.

(** ** release create: the attach flag *)

Lemma prefix_char (a c : ascii) (r : string) :
  String.prefix (String a EmptyString) (String c r) = Ascii.eqb c a.
Proof.
  cbn. destruct (ascii_dec a c) as [->|N].
  - rewrite Ascii.eqb_refl. destruct r; reflexivity.
  - symmetry. apply Ascii.eqb_neq. congruence.
Qed.










Lemma uploadAssets_real env (r : Release) (assets : list string) :
  forall (ps : list string) (t d : list Event),
    uploadAssets env (Some r) assets (mkState (mkArgs ps false) t d)
    = (mkState (mkArgs ps false) (t ++ fst (upload_trace env r assets)) d,
       snd (upload_trace env r assets)).
Proof.
  induction assets as [|token rest IH]; intros ps t d.
  - cbn. rewrite app_nil_r. reflexivity.
  - cbn [uploadAssets upload_trace].
    generalize (split_asset token). intros [asset label].
    unfold UploadReleaseAsset. unfold_go. cbn.
    destruct (env_UploadReleaseAsset env r asset label) as [e|]; cbn.
    + rewrite <- !app_assoc. reflexivity.
    + rewrite IH. rewrite <- !app_assoc. reflexivity.
Qed.

Lemma uploadAssets_noop env (release : option Release) (assets : list string) :
  forall (ps : list string) (t d : list Event),
    uploadAssets env release assets (mkState (mkArgs ps true) t d)
    = (mkState (mkArgs ps true) (t ++ map would_attach assets) d, Returned tt).
Proof.
  induction assets as [|token rest IH]; intros ps t d.
  - cbn. rewrite app_nil_r. reflexivity.
  - cbn [uploadAssets map]. unfold would_attach.
    generalize (split_asset token). intros [asset label].
    unfold_go. cbn.
    destruct (String.eqb label ""); cbn; rewrite IH, <- app_assoc; reflexivity.
Qed.


(** ** release create *)

Ltac case_scrutinee :=
  match goal with
  | |- context [match ?x with _ => _ end] =>
      lazymatch x with
      | context [match _ with _ => _ end] => fail
      | _ => destruct x eqn:?
      end
  end.

Ltac run_handler :=
  cbn;
  repeat (first [ rewrite uploadAssets_noop
                | rewrite uploadAssets_real
                | case_scrutinee ];
          cbn).

Ltac prefix_before_stdout l :=
  lazymatch l with
  | EvStdout _ :: _ => constr:(@nil Event)
  | ?x :: ?r => let p := prefix_before_stdout r in constr:(x :: p)
  end.

Ltac message_flag_empty :=
  match goal with
  | H : negb (String.eqb ?m "") = false |- _ =>
      apply negb_false_iff in H; apply String.eqb_eq in H; exact H
  end.

Ltac only_message_file :=
  let f := fresh "f" in
  let HIn := fresh "HIn" in
  intros f HIn; cbn in HIn;
  repeat match goal with
         | H : _ \/ _ |- _ => destruct H as [H | H]
         | H : False |- _ => contradiction
         | H : _ = EvReadMsgFromFile _ |- _ =>
             first [ discriminate H
                   | inversion H; subst; clear H;
                     split; [reflexivity | message_flag_empty] ]
         end.

Ltac no_argument :=
  match goal with
  | H : (Z.of_nat (length ?ps) - 1 <? 0) = true |- _ =>
      left; split;
      [ destruct ps; [reflexivity | exfalso; apply Z.ltb_lt in H; cbn [length] in H; lia]
      | split; reflexivity ]
  end.

Ltac stop_case :=
  right; left;
  match goal with
  | |- context [(mkState (mkArgs _ true) ?l [], Exited Check_status) = _] =>
      exists (removelast l)
  end;
  cbn [removelast]; eexists;
  split; [reflexivity |];
  split; [only_message_file |];
  split; reflexivity.

Ltac go_case :=
  right; right;
  match goal with
  | H : env_CreateRelease _ ?p (mkRelease ?t _ ?c ?b _ _ _ _ _ _) = _
    |- context [(mkState (mkArgs _ true) ?l [], Exited 0) = _] =>
      let pre := prefix_before_stdout l in
      exists pre, p, t, b, c;
      split; [reflexivity|];
      split; [only_message_file |];
      split; [reflexivity|];
      cbv zeta; unfold release_params; rewrite H;
      try match goal with
          | H2 : snd (upload_trace _ _ _) = _ |- _ => rewrite H2
          end;
      reflexivity
  end.

(** The three ways a run of [createRelease] goes: with no argument it fails
    in [LastParam]; it stops at a failed check; or it gets to the step that
    creates the release.  Before that step it only looks things up, and the
    only message file it opens is the one named by the (empty) message
    flag. *)
Lemma createRelease_shape env flags (ps : list string) :
  let tagName := List.last ps "" in
  let assets := flagReleaseAssets flags in
  (ps = [] /\
   run (createRelease env flags) (mkArgs ps true)
   = (mkState (mkArgs ps true) [] [], Panicked "index out of range") /\
   run (createRelease env flags) (mkArgs ps false)
   = (mkState (mkArgs ps false) [] [], Panicked "index out of range"))
  \/
  (exists pre e,
      forallb is_lookup pre = true /\
      (forall f, In (EvReadMsgFromFile f) pre -> f = flagReleaseMessage flags /\ f = "") /\
      run (createRelease env flags) (mkArgs ps true)
      = (mkState (mkArgs ps true) (pre ++ [EvStderr (e +:+ nl)]) [], Exited 1) /\
      run (createRelease env flags) (mkArgs ps false)
      = (mkState (mkArgs ps false) (pre ++ [EvStderr (e +:+ nl)]) [], Exited 1))
  \/
  (exists pre project title body commitish,
      forallb is_lookup pre = true /\
      (forall f, In (EvReadMsgFromFile f) pre -> f = flagReleaseMessage flags /\ f = "") /\
      run (createRelease env flags) (mkArgs ps true)
      = (mkState (mkArgs ps true)
                 (pre ++ EvStdout (would_create title (project_String project) tagName)
                      :: map would_attach assets) [],
         Exited 0) /\
      let params := release_params flags title tagName commitish body in
      run (createRelease env flags) (mkArgs ps false)
      = match env_CreateRelease env project params with
        | Err e =>
            (mkState (mkArgs ps false)
                     (pre ++ [EvCreateRelease project params; EvStderr (e +:+ nl)]) [],
             Exited 1)
        | Ok r =>
            (mkState (mkArgs ps false)
                     (pre ++ EvCreateRelease project params
                          :: EvStdout (HtmlUrl r +:+ nl)
                          :: fst (upload_trace env r assets)) [],
             then_exit 0 (snd (upload_trace env r assets)))
        end).
Proof.
  cbv zeta. unfold run, init_state, createRelease. unfold_go.
  run_handler.
  all: first [no_argument | stop_case | go_case].
Qed.

Lemma lookup_not_api (e : Event) : is_lookup e = true -> is_api_call e = false.
Proof. destruct e; cbn; congruence. Qed.

Lemma lookups_not_api (pre : list Event) :
  forallb is_lookup pre = true -> Forall (fun e => is_api_call e = false) pre.
Proof.
  intros H. apply Forall_forall. intros e He.
  apply lookup_not_api. rewrite forallb_forall in H. apply H.
  apply list_elem_of_In. exact He.
Qed.

Lemma lookups_no_stdout (pre : list Event) :
  forallb is_lookup pre = true -> stdout_of pre = [].
Proof.
  induction pre as [|e pre IH]; [reflexivity|].
  cbn [forallb]. intros H. apply andb_true_iff in H as [He Hp].
  unfold stdout_of in *. cbn [flat_map]. rewrite (IH Hp).
  destruct e; try reflexivity; discriminate He.
Qed.

Lemma lookups_no_stderr (pre : list Event) :
  forallb is_lookup pre = true ->
  flat_map (fun e => match e with EvStderr s => [s] | _ => [] end) pre = [].
Proof.
  induction pre as [|e pre IH]; [reflexivity|].
  cbn [forallb]. intros H. apply andb_true_iff in H as [He Hp].
  cbn [flat_map]. rewrite (IH Hp).
  destruct e; try reflexivity; discriminate He.
Qed.

Lemma would_attach_stderr (token : string) : exists s, would_attach token = EvStderr s.
Proof.
  unfold would_attach. destruct (String.eqb (snd (split_asset token)) ""); eexists; reflexivity.
Qed.

Lemma would_attach_no_stdout (assets : list string) :
  stdout_of (map would_attach assets) = [].
Proof.
  induction assets as [|a assets IH]; [reflexivity|].
  unfold stdout_of in *. cbn [map flat_map]. rewrite IH.
  destruct (would_attach_stderr a) as [s ->]. reflexivity.
Qed.

Lemma would_attach_not_api (assets : list string) :
  Forall (fun e => is_api_call e = false) (map would_attach assets).
Proof.
  induction assets as [|a assets IH]; cbn [map]; constructor; [|exact IH].
  destruct (would_attach_stderr a) as [s ->]. reflexivity.
Qed.

Lemma stdout_of_app (t1 t2 : list Event) : stdout_of (t1 ++ t2) = stdout_of t1 ++ stdout_of t2.
Proof. unfold stdout_of. apply flat_map_app. Qed.

(** The upload loop prints and uploads to the created release, nothing else. *)
Lemma upload_trace_events env (r : Release) (assets : list string) :
  Forall (fun e => is_print e = true \/
                   exists asset label, e = EvUploadReleaseAsset (Some r) asset label)
         (fst (upload_trace env r assets)).
Proof.
  induction assets as [|token rest IH]; cbn [upload_trace]; [constructor|].
  generalize (split_asset token). intros [asset label]. cbn [fst snd].
  destruct (env_UploadReleaseAsset env r asset label) as [e|]; cbn [fst app].
  - constructor; [left; reflexivity|]. constructor; [right; eauto|].
    constructor; [left; reflexivity|]. constructor.
  - constructor; [left; reflexivity|]. constructor; [right; eauto|]. exact IH.
Qed.

Lemma upload_trace_outcome env (r : Release) (assets : list string) :
  snd (upload_trace env r assets) = Returned tt \/ snd (upload_trace env r assets) = Exited 1.
Proof.
  induction assets as [|token rest IH]; cbn [upload_trace]; [left; reflexivity|].
  destruct (env_UploadReleaseAsset env r (fst (split_asset token)) (snd (split_asset token)));
    cbn [snd]; [right; reflexivity | exact IH].
Qed.

(** An upload that fails is the last thing the loop does, but for printing
    the error. *)
Lemma upload_trace_failure env (r : Release) (assets : list string) :
  forall t3 t4 asset label e,
    fst (upload_trace env r assets) = t3 ++ EvUploadReleaseAsset (Some r) asset label :: t4 ->
    env_UploadReleaseAsset env r asset label = Some e ->
    t4 = [EvStderr (e +:+ nl)] /\ snd (upload_trace env r assets) = Exited 1.
Proof.
  induction assets as [|token rest IH]; intros t3 t4 asset label e Heq Hfail.
  - cbn in Heq. destruct t3; discriminate Heq.
  - cbn [upload_trace] in *. revert Heq.
    generalize (split_asset token). intros [asset0 label0]. cbn [fst snd].
    destruct (env_UploadReleaseAsset env r asset0 label0) as [e0|] eqn:E0;
      cbn [fst snd app]; intros Heq.
    + destruct t3 as [|x [|y [|z t3]]]; cbn in Heq.
      * discriminate Heq.
      * inversion Heq; subst. rewrite E0 in Hfail. inversion Hfail. auto.
      * inversion Heq.
      * inversion Heq. destruct t3; discriminate.
    + destruct t3 as [|x [|y t3]]; cbn in Heq.
      * discriminate Heq.
      * inversion Heq; subst. congruence.
      * inversion Heq; subst. eapply IH; eauto.
Qed.

Lemma split_at_create (pre post t1 t2 : list Event) (x y : Event) :
  pre ++ y :: post = t1 ++ x :: t2 ->
  is_create x = true ->
  Forall (fun e => is_create e = false) pre ->
  Forall (fun e => is_create e = false) post ->
  t1 = pre /\ x = y /\ t2 = post.
Proof.
  revert t1. induction pre as [|a pre IH]; intros t1 Heq Hx Hpre Hpost.
  - destruct t1 as [|z t1]; cbn in Heq.
    + inversion Heq. auto.
    + inversion Heq; subst. exfalso.
      rewrite Forall_forall in Hpost.
      assert (is_create x = false) as F.
      { apply Hpost. apply list_elem_of_In. apply in_or_app. right. left. reflexivity. }
      congruence.
  - inversion Hpre as [|? ? Ha Hpre']; subst.
    destruct t1 as [|z t1]; cbn in Heq.
    + inversion Heq; subst. congruence.
    + inversion Heq; subst. destruct (IH t1) as (-> & -> & ->); auto.
Qed.

Lemma lookups_not_create (pre : list Event) :
  forallb is_lookup pre = true -> Forall (fun e => is_create e = false) pre.
Proof.
  intros H. apply Forall_forall. intros e He.
  rewrite forallb_forall in H. apply list_elem_of_In in He. specialize (H e He).
  destruct e; try reflexivity; discriminate H.
Qed.

Lemma upload_trace_not_create env (r : Release) (assets : list string) :
  Forall (fun e => is_create e = false) (fst (upload_trace env r assets)).
Proof.
  eapply Forall_impl; [apply (upload_trace_events env r assets) |].
  intros e [Hp | (a & l & ->)]; [|reflexivity].
  destruct e; try reflexivity; discriminate Hp.
Qed.

Lemma would_create_contains (title project tagName : string) :
  contains (would_create title project tagName) title /\
  contains (would_create title project tagName) tagName.
Proof.
  unfold would_create, contains. split.
  - eexists _, _. reflexivity.
  - exists ("Would create release `" +:+ title +:+ "' for " +:+ project
            +:+ " with tag name `"), ("'" +:+ nl).
    rewrite !string_append_assoc. reflexivity.
Qed.

(** C5, as the handler has it.  With the latch set, [createRelease] makes no
    call to the hosting API, whatever the number of assets.  Whenever the
    same invocation without the latch would get to create a release, it
    prints one line on standard output, which contains the title and the
    tag name of that release, and exits with status 0; otherwise it has
    been stopped before that line: nothing is on standard output and the
    status is not 0. *)
Theorem createRelease_noop env flags (ps : list string) :
  let r := run (createRelease env flags) (mkArgs ps true) in
  let real := run (createRelease env flags) (mkArgs ps false) in
  Forall (fun e => is_api_call e = false) (trace_of r) /\
  (forall p params,
      In (EvCreateRelease p params) (trace_of real) ->
      outcome_of r = Exited 0 /\
      stdout_of (trace_of r)
      = [would_create (Name params) (project_String p) (TagName params)] /\
      TagName params = List.last ps "" /\
      contains (would_create (Name params) (project_String p) (TagName params))
               (TagName params) /\
      contains (would_create (Name params) (project_String p) (TagName params))
               (Name params)) /\
  ((forall p params, ~ In (EvCreateRelease p params) (trace_of real)) ->
   process_status (outcome_of r) <> 0 /\ stdout_of (trace_of r) = []).
Proof.
  cbv zeta.
  destruct (createRelease_shape env flags ps)
    as [(_ & -> & ->)
       | [(pre & e & Hpre & _ & -> & ->)
         | (pre & project & title & body & commitish & Hpre & _ & -> & Hreal)]];
    unfold trace_of, outcome_of; cbn [fst snd st_trace].
  - split; [constructor|]. split; [intros p params []|].
    intros _. split; [discriminate | reflexivity].
  - split; [|split].
    + apply Forall_app. split; [apply lookups_not_api; exact Hpre|].
      constructor; [reflexivity | constructor].
    + intros p params HIn. exfalso.
      apply in_app_or in HIn as [HIn | [HIn | []]]; [|discriminate HIn].
      pose proof (lookups_not_create pre Hpre) as Hc. rewrite Forall_forall in Hc.
      apply list_elem_of_In in HIn. specialize (Hc _ HIn). discriminate Hc.
    + intros _. split; [discriminate|].
      rewrite stdout_of_app, (lookups_no_stdout pre Hpre). reflexivity.
  - cbv zeta in Hreal.
    assert (Hin : forall p params,
               In (EvCreateRelease p params)
                  (st_trace (fst (run (createRelease env flags) (mkArgs ps false)))) ->
               p = project /\
               params = release_params flags title (List.last ps "") commitish body).
    { intros p params HIn. rewrite Hreal in HIn.
      pose proof (lookups_not_create pre Hpre) as Hc. rewrite Forall_forall in Hc.
      destruct (env_CreateRelease env project
                  (release_params flags title (List.last ps "") commitish body))
        as [r|e]; cbn [fst st_trace] in HIn;
        apply in_app_or in HIn as [HIn | HIn].
      - apply list_elem_of_In in HIn. specialize (Hc _ HIn). discriminate Hc.
      - destruct HIn as [HIn | [HIn | HIn]]; [inversion HIn; auto | discriminate HIn |].
        pose proof (upload_trace_not_create env r (flagReleaseAssets flags)) as Hu.
        rewrite Forall_forall in Hu. apply list_elem_of_In in HIn.
        specialize (Hu _ HIn). discriminate Hu.
      - apply list_elem_of_In in HIn. specialize (Hc _ HIn). discriminate Hc.
      - destruct HIn as [HIn | [HIn | []]]; [inversion HIn; auto | discriminate HIn]. }
    split; [|split].
    + apply Forall_app. split; [apply lookups_not_api; exact Hpre|].
      constructor; [reflexivity | apply would_attach_not_api].
    + intros p params HIn. destruct (Hin p params HIn) as [-> ->].
      cbn [release_params Name TagName].
      split; [reflexivity|]. split.
      * rewrite stdout_of_app, (lookups_no_stdout pre Hpre).
        unfold stdout_of at 1. cbn [flat_map app].
        fold (stdout_of (map would_attach (flagReleaseAssets flags))).
        rewrite would_attach_no_stdout. reflexivity.
      * split; [reflexivity|]. split; apply would_create_contains.
    + intros Hnone. exfalso.
      destruct (env_CreateRelease env project
                  (release_params flags title (List.last ps "") commitish body))
        as [r|e]; rewrite Hreal in Hnone;
        apply (Hnone project
                 (release_params flags title (List.last ps "") commitish body));
        cbn [fst st_trace]; apply in_or_app; right; left; reflexivity.
Qed.

Lemma createRelease_noop_witness :
  let p := sample_project in
  let params := release_params message_flags "Release 1.0" "v1.0" "master" "" in
  let r := run (createRelease sample_env message_flags) (mkArgs ["v1.0"] true) in
  let real := run (createRelease sample_env message_flags) (mkArgs ["v1.0"] false) in
  In (EvCreateRelease p params) (trace_of real) /\
  outcome_of r = Exited 0 /\
  stdout_of (trace_of r)
  = [would_create (Name params) (project_String p) (TagName params)].
Proof.
  cbv zeta.
  assert (HIn : In (EvCreateRelease sample_project
                      (release_params message_flags "Release 1.0" "v1.0" "master" ""))
                   (trace_of (run (createRelease sample_env message_flags)
                                  (mkArgs ["v1.0"] false)))).
  { vm_compute. do 4 right. left. reflexivity. }
  split; [exact HIn|].
  destruct (createRelease_noop sample_env message_flags ["v1.0"]) as (_ & H & _).
  destruct (H _ _ HIn) as (Ho & Hs & _). split; [exact Ho | exact Hs].
Defined.

(** With the latch set, a tag name given and the title left empty in the
    editor, the handler stops at the empty title: it prints no description
    on standard output and exits with status 1. *)
Lemma createRelease_noop_empty_title :
  let r := run (createRelease untitled_env no_flags) (mkArgs ["v1.0"] true) in
  trace_of r
  = [EvLocalRepo; EvCurrentProject; EvNewClient "github.com"; EvCurrentBranch;
     EvCommentChar; EvRenderReleaseTpl "#" "v1.0" "octocat/hello" "master";
     EvNewEditor "template"; EvEditTitleAndBody;
     EvStderr ("Aborting release due to empty release title" +:+ nl)] /\
  stdout_of (trace_of r) = [] /\
  outcome_of r = Exited 1 /\
  outcome_of r <> Exited 0.
Proof. cbv zeta. repeat split. vm_compute. discriminate. Qed.

(** C8.  In a run of [createRelease] in which the release [r] has been
    created, everything that follows is printing and uploading assets to
    [r]: nothing deletes or undoes the release.  An upload that reports a
    failure is followed by the error message only, and the process ends
    with status 1. *)
Theorem createRelease_no_rollback env flags (ps : list string)
        (t1 t2 : list Event) (p : Project) (params r : Release) :
  let real := run (createRelease env flags) (mkArgs ps false) in
  trace_of real = t1 ++ EvCreateRelease p params :: t2 ->
  env_CreateRelease env p params = Ok r ->
  Forall (fun e => is_print e = true \/
                   exists asset label, e = EvUploadReleaseAsset (Some r) asset label) t2 /\
  forall t3 t4 asset label e,
    t2 = t3 ++ EvUploadReleaseAsset (Some r) asset label :: t4 ->
    env_UploadReleaseAsset env r asset label = Some e ->
    t4 = [EvStderr (e +:+ nl)] /\ outcome_of real = Exited 1.
Proof.
  cbv zeta. intros Htrace Hok.
  destruct (createRelease_shape env flags ps)
    as [(_ & _ & Hreal)
       | [(pre & e & Hpre & _ & _ & Hreal)
         | (pre & project & title & body & commitish & Hpre & _ & _ & Hreal)]].
  - exfalso. rewrite Hreal in Htrace. unfold trace_of in Htrace. cbn [fst st_trace] in Htrace.
    destruct t1; discriminate Htrace.
  - exfalso. rewrite Hreal in Htrace. unfold trace_of in Htrace. cbn [fst st_trace] in Htrace.
    assert (HIn : In (EvCreateRelease p params) (pre ++ [EvStderr (e +:+ nl)])).
    { rewrite Htrace. apply in_or_app. right. left. reflexivity. }
    apply in_app_or in HIn as [HIn | [HIn | []]]; [|discriminate HIn].
    pose proof (lookups_not_create pre Hpre) as Hc. rewrite Forall_forall in Hc.
    apply list_elem_of_In in HIn. specialize (Hc _ HIn). discriminate Hc.
  - cbv zeta in Hreal. rewrite Hreal in *. clear Hreal.
    pose proof (lookups_not_create pre Hpre) as Hc.
    destruct (env_CreateRelease env project
                (release_params flags title (List.last ps "") commitish body))
      as [r0|e0] eqn:Ecreate; unfold trace_of, outcome_of in *; cbn [fst snd st_trace] in *.
    + destruct (split_at_create _ _ _ _ _ _ Htrace eq_refl Hc) as (-> & Hx & ->).
      { constructor; [reflexivity | apply upload_trace_not_create]. }
      inversion Hx; subst. rewrite Ecreate in Hok. inversion Hok; subst r0.
      split.
      * constructor; [left; reflexivity | apply upload_trace_events].
      * intros t3 t4 asset label e Hsplit Hfail.
        destruct t3 as [|x t3]; [discriminate Hsplit|].
        inversion Hsplit as [[Hx' Hrest]].
        destruct (upload_trace_failure env r _ _ _ _ _ _ Hrest Hfail) as [-> Hout].
        rewrite Hout. split; reflexivity.
    + exfalso.
      destruct (split_at_create _ _ _ _ _ _ Htrace eq_refl Hc) as (_ & Hx & _).
      { constructor; [reflexivity | constructor]. }
      inversion Hx; subst. congruence.
Qed.

Lemma createRelease_no_rollback_witness :
  let real := run (createRelease sample_env message_flags) (mkArgs ["v1.0"] false) in
  let params := release_params message_flags "Release 1.0" "v1.0" "master" "" in
  let r := mkRelease "Release 1.0" "v1.0" "master" "" false false [] "" ""
                     "https://github.com/octocat/hello/releases/v1.0" in
  let t1 := [EvLocalRepo; EvCurrentProject; EvNewClient "github.com"; EvCurrentBranch] in
  let t3 := [EvStdout (HtmlUrl r +:+ nl);
             EvStderr ("Attaching release asset `hub.tgz'..." +:+ nl);
             EvUploadReleaseAsset (Some r) "hub.tgz" "";
             EvStderr ("Attaching release asset `broken.zip'..." +:+ nl)] in
  let failed := EvUploadReleaseAsset (Some r) "broken.zip" "Windows" in
  let t4 := [EvStderr ("upload refused" +:+ nl)] in
  trace_of real = t1 ++ EvCreateRelease sample_project params :: t3 ++ failed :: t4 /\
  env_CreateRelease sample_env sample_project params = Ok r /\
  env_UploadReleaseAsset sample_env r "broken.zip" "Windows" = Some "upload refused" /\
  Forall (fun e => is_print e = true \/
                   exists asset label, e = EvUploadReleaseAsset (Some r) asset label)
         (t3 ++ failed :: t4) /\
  outcome_of real = Exited 1.
Proof.
  intros real params r t1 t3 failed t4.
  split; [reflexivity|]. split; [reflexivity|]. split; [reflexivity|].
  destruct (createRelease_no_rollback sample_env message_flags ["v1.0"]
              t1 (t3 ++ failed :: t4) sample_project params r
              eq_refl eq_refl) as [Hall Hfail].
  split; [exact Hall|].
  exact (proj2 (Hfail t3 t4 "broken.zip" "Windows" "upload refused" eq_refl eq_refl)).
Defined.

Lemma upload_trace_no_file_read env (r : Release) (assets : list string) (f : string) :
  ~ In (EvReadMsgFromFile f) (fst (upload_trace env r assets)).
Proof.
  intros HIn. pose proof (upload_trace_events env r assets) as H.
  rewrite Forall_forall in H. apply list_elem_of_In in HIn.
  destruct (H _ HIn) as [Hp | (a & l & Hu)]; discriminate.
Qed.

Lemma would_attach_no_file_read (assets : list string) (f : string) :
  ~ In (EvReadMsgFromFile f) (map would_attach assets).
Proof.
  intros HIn. apply in_map_iff in HIn as (a & Ha & _).
  destruct (would_attach_stderr a) as [s Hs]. congruence.
Qed.

(** C9 does not hold of the code.  At the branch taken when the message
    flag is empty and the file flag is not, [createRelease] passes the
    value of the message flag to [readMsgFromFile]: in every run, a message
    file that is opened has the empty name.  With [--file notes.md] the file
    [notes.md] is never read, and in the sample environment, where no file
    has the empty name, the run stops at the failed read. *)
Theorem createRelease_file_flag_reads_message_name :
  (forall env flags (ps : list string) noop f,
      In (EvReadMsgFromFile f) (trace_of (run (createRelease env flags) (mkArgs ps noop))) ->
      f = flagReleaseMessage flags /\ f = "") /\
  let r := run (createRelease sample_env file_flags) (mkArgs ["v1.0"] false) in
  trace_of r
  = [EvLocalRepo; EvCurrentProject; EvNewClient "github.com"; EvCurrentBranch;
     EvReadMsgFromFile ""; EvStderr ("open : no such file or directory" +:+ nl)] /\
  outcome_of r = Exited 1 /\
  ~ In (EvReadMsgFromFile (flagReleaseFile file_flags)) (trace_of r).
Proof.
  split.
  - intros env flags ps noop f HIn.
    destruct (createRelease_shape env flags ps)
      as [(_ & Hdry & Hreal)
         | [(pre & e & _ & Hfile & Hdry & Hreal)
           | (pre & project & title & body & commitish & _ & Hfile & Hdry & Hreal)]].
    + exfalso. destruct noop; [rewrite Hdry in HIn | rewrite Hreal in HIn]; exact HIn.
    + assert (Ht : trace_of (run (createRelease env flags) (mkArgs ps noop))
                   = pre ++ [EvStderr (e +:+ nl)]).
      { destruct noop; [rewrite Hdry | rewrite Hreal]; reflexivity. }
      rewrite Ht in HIn. apply in_app_or in HIn as [HIn | [HIn | []]]; [|discriminate HIn].
      exact (Hfile f HIn).
    + destruct noop.
      * rewrite Hdry in HIn. unfold trace_of in HIn. cbn [fst st_trace] in HIn.
        apply in_app_or in HIn as [HIn | [HIn | HIn]];
          [exact (Hfile f HIn) | discriminate HIn |].
        exfalso. exact (would_attach_no_file_read _ _ HIn).
      * cbv zeta in Hreal. rewrite Hreal in HIn.
        destruct (env_CreateRelease env project
                    (release_params flags title (List.last ps "") commitish body))
          as [r|e]; unfold trace_of in HIn; cbn [fst st_trace] in HIn;
          apply in_app_or in HIn as [HIn | HIn]; try exact (Hfile f HIn).
        -- destruct HIn as [HIn | [HIn | HIn]]; [discriminate HIn | discriminate HIn |].
           exfalso. exact (upload_trace_no_file_read _ _ _ _ HIn).
        -- destruct HIn as [HIn | [HIn | []]]; discriminate HIn.
  - cbv zeta. split; [reflexivity|]. split; [reflexivity|].
    vm_compute. intros H.
    repeat (destruct H as [H | H]; [discriminate H |]). exact H.
Qed.

Lemma createRelease_file_flag_reads_message_name_witness :
  let r := run (createRelease sample_env file_flags) (mkArgs ["v1.0"] false) in
  In (EvReadMsgFromFile "") (trace_of r) /\
  ("" = flagReleaseMessage file_flags /\ "" = "").
Proof.
  cbv zeta.
  assert (HIn : In (EvReadMsgFromFile "")
                   (trace_of (run (createRelease sample_env file_flags)
                                  (mkArgs ["v1.0"] false)))).
  { vm_compute. do 4 right. left. reflexivity. }
  split; [exact HIn|].
  exact (proj1 createRelease_file_flag_reads_message_name
               sample_env file_flags ["v1.0"] false "" HIn).
Defined.

(** C10, as the handler has it.  In no-op mode the upload step is given a
    nil release and never reads it: [uploadAssets] only prints one line per
    asset and returns.  A run of [createRelease] with the latch set contains
    no upload call and never ends in a nil dereference.  Whenever the same
    invocation without the latch would get to create a release, the run
    describes every asset, in order, as its last events and reaches
    [os.Exit(0)]; so does every run that has printed the description of the
    release, the step right before the uploads. *)
Theorem noop_release_never_read env flags (ps : list string) :
  (forall (assets ps' : list string) (t d : list Event),
      uploadAssets env None assets (mkState (mkArgs ps' true) t d)
      = (mkState (mkArgs ps' true) (t ++ map would_attach assets) d, Returned tt)) /\
  let r := run (createRelease env flags) (mkArgs ps true) in
  let real := run (createRelease env flags) (mkArgs ps false) in
  (forall release asset label, ~ In (EvUploadReleaseAsset release asset label) (trace_of r)) /\
  outcome_of r <> Panicked "nil pointer dereference" /\
  (forall p params,
      In (EvCreateRelease p params) (trace_of real) ->
      outcome_of r = Exited 0 /\
      exists pre,
        trace_of r = pre ++ map would_attach (flagReleaseAssets flags) /\
        stderr_of pre = []) /\
  (stdout_of (trace_of r) <> [] ->
   outcome_of r = Exited 0 /\
   exists pre,
     trace_of r = pre ++ map would_attach (flagReleaseAssets flags) /\
     stderr_of pre = []).
Proof.
  split; [intros; apply uploadAssets_noop|].
  cbv zeta.
  destruct (createRelease_shape env flags ps)
    as [(_ & -> & ->)
       | [(pre & e & Hpre & _ & -> & ->)
         | (pre & project & title & body & commitish & Hpre & _ & -> & _)]];
    unfold trace_of, outcome_of; cbn [fst snd st_trace].
  - split; [intros release asset label []|]. split; [discriminate|].
    split; [intros p params []|]. intros Hout. exfalso. apply Hout. reflexivity.
  - split; [|split; [|split]].
    + intros release asset label HIn.
      apply in_app_or in HIn as [HIn | [HIn | []]]; [|discriminate HIn].
      pose proof (lookups_not_api pre Hpre) as Hc. rewrite Forall_forall in Hc.
      apply list_elem_of_In in HIn. specialize (Hc _ HIn). discriminate Hc.
    + discriminate.
    + intros p params HIn. exfalso.
      apply in_app_or in HIn as [HIn | [HIn | []]]; [|discriminate HIn].
      pose proof (lookups_not_create pre Hpre) as Hc. rewrite Forall_forall in Hc.
      apply list_elem_of_In in HIn. specialize (Hc _ HIn). discriminate Hc.
    + intros Hout. exfalso. apply Hout.
      rewrite stdout_of_app, (lookups_no_stdout pre Hpre). reflexivity.
  - assert (Hdone : exists pre0,
               pre ++ EvStdout (would_create title (project_String project)
                                             (List.last ps ""))
                   :: map would_attach (flagReleaseAssets flags)
               = pre0 ++ map would_attach (flagReleaseAssets flags) /\
               stderr_of pre0 = []).
    { exists (pre ++ [EvStdout (would_create title (project_String project)
                                             (List.last ps ""))]).
      split; [rewrite <- app_assoc; reflexivity|].
      unfold stderr_of. rewrite flat_map_app. cbn [flat_map app].
      rewrite app_nil_r. apply lookups_no_stderr. exact Hpre. }
    split; [|split; [|split]].
    + intros release asset label HIn.
      apply in_app_or in HIn as [HIn | [HIn | HIn]]; [|discriminate HIn|].
      * pose proof (lookups_not_api pre Hpre) as Hc. rewrite Forall_forall in Hc.
        apply list_elem_of_In in HIn. specialize (Hc _ HIn). discriminate Hc.
      * apply in_map_iff in HIn as (a & Ha & _).
        destruct (would_attach_stderr a) as [s Hs]. congruence.
    + discriminate.
    + intros p params _. split; [reflexivity | exact Hdone].
    + intros _. split; [reflexivity | exact Hdone].
Qed.

Lemma noop_release_never_read_witness :
  let params := release_params message_flags "Release 1.0" "v1.0" "master" "" in
  let r := run (createRelease sample_env message_flags) (mkArgs ["v1.0"] true) in
  let real := run (createRelease sample_env message_flags) (mkArgs ["v1.0"] false) in
  In (EvCreateRelease sample_project params) (trace_of real) /\
  outcome_of r = Exited 0 /\
  exists pre,
    trace_of r = pre ++ map would_attach ["hub.tgz"; "broken.zip#Windows"; "late.txt"] /\
    stderr_of pre = [].
Proof.
  cbv zeta.
  assert (HIn : In (EvCreateRelease sample_project
                      (release_params message_flags "Release 1.0" "v1.0" "master" ""))
                   (trace_of (run (createRelease sample_env message_flags)
                                  (mkArgs ["v1.0"] false)))).
  { vm_compute. do 4 right. left. reflexivity. }
  split; [exact HIn|].
  destruct (noop_release_never_read sample_env message_flags ["v1.0"])
    as (_ & _ & _ & H & _).
  exact (H _ _ HIn).
Defined.

(** With the latch set and two assets to attach, a run whose title is left
    empty in the editor ends with status 1 before the upload step: no asset
    is described. *)
Lemma noop_assets_not_reached :
  let r := run (createRelease untitled_env attach_flags) (mkArgs ["v1.0"] true) in
  flagReleaseAssets attach_flags = ["hub.tgz"; "docs.zip#Docs"] /\
  outcome_of r = Exited 1 /\
  outcome_of r <> Exited 0 /\
  stderr_of (trace_of r) = ["Aborting release due to empty release title" +:+ nl] /\
  (forall token, In token (flagReleaseAssets attach_flags) ->
                 ~ In (would_attach token) (trace_of r)).
Proof.
  cbv zeta. split; [reflexivity|]. split; [reflexivity|].
  split; [vm_compute; discriminate|]. split; [reflexivity|].
  intros token [<- | [<- | []]]; vm_compute; intros H;
    repeat (destruct H as [H | H]; [discriminate H |]); exact H.
Qed.


(** * Further properties of the handlers *)

(** ** release: the listing *)

Lemma print_tags_run (includeDrafts : bool) (releases : list Release) :
  forall (a : Args) (t d : list Event),
    for_range releases
      (fun release =>
         if negb (Draft release) || includeDrafts then ui_Println (TagName release)
         else ret tt)
      (mkState a t d)
    = (mkState a (t ++ map (fun r => EvStdout (TagName r +:+ nl)) (shown includeDrafts releases)) d,
       Returned tt).
Proof.
  induction releases as [|r rs IH]; intros a t d.
  - cbn. rewrite app_nil_r. reflexivity.
  - cbn [for_range shown List.filter]. unfold bind.
    destruct (negb (Draft r) || includeDrafts).
    + unfold ui_Println, emit. cbn [st_args st_trace st_deferred].
      rewrite IH. cbn [map]. rewrite <- app_assoc. reflexivity.
    + unfold ret. rewrite IH. reflexivity.
Qed.

Ltac unfold_listing :=
  unfold Listing.run_listing, Listing.listReleases, Listing.FetchReleases,
    Listing.lbind, Listing.lret, Listing.lift.

(** X1.  When the lookups and the request succeed, [listReleases] prints the
    tag name of every release that is not a draft (of every release with
    [--include-drafts]), one per line, in the order the API gave them, after
    exactly one request, and exits with status 0. *)
Theorem listReleases_prints_tags env (includeDrafts : bool)
        (answer : Project -> result (list Release)) (ps : list string)
        (project : Project) (releases : list Release) :
  env_LocalRepo env = None ->
  env_MainProject env = Ok project ->
  answer project = Ok releases ->
  let r := Listing.run_listing (Listing.listReleases env includeDrafts answer)
                               (mkArgs ps false) in
  snd r = Exited 0 /\
  Listing.ls_trace (fst r)
  = [Listing.Other EvLocalRepo; Listing.Other EvMainProject;
     Listing.Other (EvNewClient (Host project)); Listing.EvFetchReleases project]
    ++ map (fun rel => Listing.Other (EvStdout (TagName rel +:+ nl)))
           (shown includeDrafts releases) /\
  Listing.listing_stdout (Listing.ls_trace (fst r))
  = map (fun rel => TagName rel +:+ nl) (shown includeDrafts releases).
Proof.
  intros Hrepo Hproject Hanswer. cbv zeta.
  unfold_listing. unfold_go. cbn. rewrite Hrepo. cbn. rewrite Hproject. cbn.
  rewrite Hanswer. cbn. rewrite print_tags_run. cbn.
  split; [reflexivity|]. rewrite map_map, app_nil_r. split; [reflexivity|].
  unfold Listing.listing_stdout. cbn.
  induction (shown includeDrafts releases) as [|x l IH]; [reflexivity|].
  cbn. rewrite IH. reflexivity.
Qed.

Lemma listReleases_prints_tags_witness :
  let answer := fun _ : Project =>
                  Ok [mkRelease "One" "v1.0" "master" "" false false [] "" "" "";
                      mkRelease "Two" "v2.0-rc" "master" "" true false [] "" "" "";
                      mkRelease "Two" "v2.0" "master" "" false false [] "" "" ""] in
  let r := Listing.run_listing (Listing.listReleases sample_env false answer)
                               (mkArgs [] false) in
  env_LocalRepo sample_env = None /\
  env_MainProject sample_env = Ok sample_project /\
  snd r = Exited 0 /\
  Listing.listing_stdout (Listing.ls_trace (fst r)) = ["v1.0" +:+ nl; "v2.0" +:+ nl].
Proof.
  intros answer r.
  split; [reflexivity|]. split; [reflexivity|].
  destruct (listReleases_prints_tags sample_env false answer [] sample_project _
              eq_refl eq_refl eq_refl) as (Hout & _ & Hstd).
  split; [exact Hout | exact Hstd].
Defined.

(** X2.  With the latch set, [listReleases] never requests the releases; when
    the lookups succeed it says which project it would ask for and exits
    with status 0. *)
Theorem listReleases_noop env (includeDrafts : bool)
        (answer : Project -> result (list Release)) (ps : list string) :
  let r := Listing.run_listing (Listing.listReleases env includeDrafts answer)
                               (mkArgs ps true) in
  forallb (fun e => negb (Listing.is_fetch e)) (Listing.ls_trace (fst r)) = true /\
  forall project,
    env_LocalRepo env = None ->
    env_MainProject env = Ok project ->
    snd r = Exited 0 /\
    Listing.listing_stdout (Listing.ls_trace (fst r))
    = ["Would request list of releases for " +:+ project_String project +:+ nl].
Proof.
  cbv zeta. unfold_listing. unfold_go. cbn.
  destruct (env_LocalRepo env) as [e|]; cbn.
  - split; [reflexivity|]. intros project H; discriminate H.
  - destruct (env_MainProject env) as [p|e]; cbn.
    + split; [reflexivity|]. intros project _ H. inversion H; subst.
      split; reflexivity.
    + split; [reflexivity|]. intros project _ H; discriminate H.
Qed.

Lemma listReleases_noop_witness :
  let r := Listing.run_listing
             (Listing.listReleases sample_env false (fun _ => Err "unreachable"))
             (mkArgs [] true) in
  env_LocalRepo sample_env = None /\
  env_MainProject sample_env = Ok sample_project /\
  snd r = Exited 0 /\
  Listing.listing_stdout (Listing.ls_trace (fst r))
  = ["Would request list of releases for octocat/hello" +:+ nl].
Proof.
  intros r. split; [reflexivity|]. split; [reflexivity|].
  exact (proj2 (listReleases_noop sample_env false (fun _ => Err "unreachable") [])
               sample_project eq_refl eq_refl).
Defined.

(** X3.  A run of [listReleases] ends with status 0, or with status 1 after
    an error message, and then nothing was written to standard output: no
    tag is printed before a failure. *)
Theorem listReleases_all_or_nothing env (includeDrafts : bool)
        (answer : Project -> result (list Release)) (ps : list string) (noop : bool) :
  let r := Listing.run_listing (Listing.listReleases env includeDrafts answer)
                               (mkArgs ps noop) in
  snd r = Exited 0 \/
  (snd r = Exited 1 /\
   Listing.listing_stdout (Listing.ls_trace (fst r)) = [] /\
   exists pre e, Listing.ls_trace (fst r) = pre ++ [Listing.Other (EvStderr (e +:+ nl))]).
Proof.
  cbv zeta. unfold_listing. unfold_go. cbn.
  destruct (env_LocalRepo env) as [e|]; cbn.
  { right. split; [reflexivity|]. split; [reflexivity|].
    exists [Listing.Other EvLocalRepo], e. reflexivity. }
  destruct (env_MainProject env) as [p|e]; cbn.
  2:{ right. split; [reflexivity|]. split; [reflexivity|].
      exists [Listing.Other EvLocalRepo; Listing.Other EvMainProject], e. reflexivity. }
  destruct noop; cbn; [left; reflexivity|].
  destruct (answer p) as [releases|e]; cbn.
  - rewrite print_tags_run. cbn. left. reflexivity.
  - right. split; [reflexivity|]. split; [reflexivity|].
    exists [Listing.Other EvLocalRepo; Listing.Other EvMainProject;
            Listing.Other (EvNewClient (Host p)); Listing.EvFetchReleases p], e.
    reflexivity.
Qed.

(** ** release show *)

Lemma print_urls_run (assets : list ReleaseAsset) :
  forall (a : Args) (t d : list Event),
    for_range assets (fun asset => ui_Println (DownloadUrl asset)) (mkState a t d)
    = (mkState a (t ++ map (fun asset => EvStdout (DownloadUrl asset +:+ nl)) assets) d,
       Returned tt).
Proof.
  induction assets as [|x xs IH]; intros a t d.
  - cbn. rewrite app_nil_r. reflexivity.
  - cbn [for_range]. unfold bind, ui_Println, emit. cbn [st_args st_trace st_deferred].
    rewrite IH. cbn [map]. rewrite <- app_assoc. reflexivity.
Qed.

Lemma LastParam_given (ps : list string) :
  List.last ps "" <> "" -> (Z.of_nat (length ps) - 1 <? 0) = false.
Proof.
  destruct ps; [intros H; contradiction H; reflexivity|].
  intros _. apply Z.ltb_ge. cbn [length]. lia.
Qed.

Lemma LastParam_missing (ps : list string) :
  (Z.of_nat (length ps) - 1 <? 0) = true -> ps = [].
Proof.
  intros H. destruct ps; [reflexivity|]. apply Z.ltb_lt in H. cbn [length] in H. lia.
Qed.

Lemma showRelease_real_run env flags (ps : list string)
        (project : Project) (release : Release) :
  let tagName := List.last ps "" in
  tagName <> "" ->
  env_LocalRepo env = None ->
  env_MainProject env = Ok project ->
  env_FetchRelease env project tagName = Ok release ->
  run (showRelease env flags) (mkArgs ps false)
  = (mkState (mkArgs ps false)
             ([EvLocalRepo; EvMainProject; EvNewClient (Host project);
               EvFetchRelease project tagName]
              ++ map EvStdout (show_lines (flagReleaseShowDownloads flags) release)) [],
     Exited 0).
Proof.
  cbv zeta. intros Htag Hrepo Hproject Hfetch.
  pose proof (LastParam_given ps Htag) as Hlast.
  apply String.eqb_neq in Htag.
  unfold run, init_state, showRelease. unfold_go. cbn.
  rewrite Hlast. cbn. rewrite Htag. cbn. rewrite Hrepo. cbn. rewrite Hproject. cbn. rewrite Hfetch. cbn.
  unfold show_lines, download_lines.
  destruct (String.eqb (strings_TrimSpace (Body release)) ""); cbn;
    destruct (flagReleaseShowDownloads flags); cbn; try reflexivity;
    rewrite print_urls_run; cbn;
    destruct (String.eqb (ZipballUrl release) ""); cbn;
    rewrite ?map_app, ?map_map, <- ?app_assoc; cbn [map]; rewrite ?app_nil_r;
    reflexivity.
Qed.

(** X4.  For a tag that the API knows, [showRelease] calls the local
    repository, the project, the client and [FetchRelease] in that order,
    prints the title line, the trimmed body when it is not empty and, under
    [--show-downloads], the download section (asset URLs in order, then the
    zipball and tarball URLs when the zipball URL is not empty), and exits
    with status 0. *)
Theorem showRelease_prints_release env flags (ps : list string)
        (project : Project) (release : Release) :
  let tagName := List.last ps "" in
  let r := run (showRelease env flags) (mkArgs ps false) in
  tagName <> "" ->
  env_LocalRepo env = None ->
  env_MainProject env = Ok project ->
  env_FetchRelease env project tagName = Ok release ->
  outcome_of r = Exited 0 /\
  stdout_of (trace_of r) = show_lines (flagReleaseShowDownloads flags) release /\
  List.filter (fun e => negb (is_print e)) (trace_of r)
  = [EvLocalRepo; EvMainProject; EvNewClient (Host project);
     EvFetchRelease project tagName].
Proof.
  cbv zeta. intros Htag Hrepo Hproject Hfetch.
  rewrite (showRelease_real_run env flags ps project release Htag Hrepo Hproject Hfetch).
  unfold outcome_of, trace_of. cbn [fst snd st_trace].
  split; [reflexivity|].
  generalize (show_lines (flagReleaseShowDownloads flags) release). intros lines.
  split.
  - unfold stdout_of. cbn. induction lines as [|x l IH]; [reflexivity|].
    cbn. rewrite IH. reflexivity.
  - cbn. induction lines as [|x l IH]; [reflexivity|]. cbn. exact IH.
Qed.

Lemma showRelease_prints_release_witness :
  let release := mkRelease "First release" "v1.0" "master"
                           (nl +:+ nbsp +:+ " Notes. " +:+ nbsp) false false
                           [mkReleaseAsset "https://example.org/hub.tgz"]
                           "https://example.org/zip" "https://example.org/tar" "" in
  let env := mkEnv None (Ok sample_project) (Ok sample_project) (Ok "master")
                   (fun _ _ => Ok release) (env_CreateRelease sample_env)
                   (env_UploadReleaseAsset sample_env) "#"
                   (env_renderReleaseTpl sample_env) (env_NewEditor sample_env)
                   (env_EditTitleAndBody sample_env) (env_readMsg sample_env)
                   (env_readMsgFromFile sample_env) (env_ExpandRemoteUrl sample_env)
                   (env_SysExec sample_env) "" (fun s => s) sample_registry in
  let flags := mkReleaseFlags true false false "" "" "" [] in
  List.last ["v1.0"] "" <> "" /\
  stdout_of (trace_of (run (showRelease env flags) (mkArgs ["v1.0"] false)))
  = ["First release (v1.0)" +:+ nl;
     nl +:+ "Notes." +:+ nl;
     nl +:+ "## Downloads" +:+ nl +:+ nl;
     "https://example.org/hub.tgz" +:+ nl;
     "https://example.org/zip" +:+ nl;
     "https://example.org/tar" +:+ nl].
Proof.
  intros release env flags.
  assert (Htag : List.last ["v1.0"] "" <> "") by discriminate.
  split; [exact Htag|].
  exact (proj1 (proj2 (showRelease_prints_release env flags ["v1.0"] sample_project
                         release Htag eq_refl eq_refl eq_refl))).
Defined.

(** X5.  With the latch set, [showRelease] makes no call to the hosting API;
    with a tag name and successful lookups it prints which release it would
    display and exits with status 0. *)
Theorem showRelease_noop env flags (ps : list string) :
  let tagName := List.last ps "" in
  let r := run (showRelease env flags) (mkArgs ps true) in
  Forall (fun e => is_api_call e = false) (trace_of r) /\
  forall project,
    tagName <> "" ->
    env_LocalRepo env = None ->
    env_MainProject env = Ok project ->
    outcome_of r = Exited 0 /\
    stdout_of (trace_of r)
    = ["Would display information for `" +:+ tagName +:+ "' release" +:+ nl].
Proof.
  cbv zeta. unfold run, init_state, showRelease. unfold_go. cbn.
  destruct (Z.of_nat (length ps) - 1 <? 0) eqn:Hlast; cbn.
  { split; [constructor|]. intros project H. apply LastParam_missing in Hlast. subst ps.
    contradiction H. reflexivity. }
  destruct (String.eqb (List.last ps "") "") eqn:Htag; cbn.
  { split; [repeat constructor|]. intros project H. apply String.eqb_eq in Htag. contradiction. }
  destruct (env_LocalRepo env) as [e|]; cbn.
  { split; [repeat constructor|]. intros project _ H; discriminate H. }
  destruct (env_MainProject env) as [p|e]; cbn.
  - split; [repeat constructor|]. intros project _ _ H. split; reflexivity.
  - split; [repeat constructor|]. intros project _ _ H; discriminate H.
Qed.

Lemma showRelease_noop_witness :
  let r := run (showRelease sample_env no_flags) (mkArgs ["v1.0"] true) in
  List.last ["v1.0"] "" <> "" /\
  outcome_of r = Exited 0 /\
  stdout_of (trace_of r) = ["Would display information for `v1.0' release" +:+ nl].
Proof.
  intros r.
  assert (Htag : List.last ["v1.0"] "" <> "") by discriminate.
  split; [exact Htag|].
  exact (proj2 (showRelease_noop sample_env no_flags ["v1.0"]) sample_project
               Htag eq_refl eq_refl).
Defined.

Lemma Forall_stdout_map {A : Type} (P : Event -> Prop) (f : A -> string) (l : list A) :
  (forall s, P (EvStdout s)) -> Forall P (map (fun a => EvStdout (f a)) l).
Proof. intros H. induction l; cbn; constructor; auto. Qed.

Ltac read_only_trace :=
  repeat first
    [ exact (List.Forall_nil _)
    | apply Forall_app; split
    | apply Forall_stdout_map; intros ? Hapi; discriminate Hapi
    | constructor; [intros Hapi; first [discriminate Hapi | eexists; reflexivity] |] ].

(** X6.  The only call [showRelease] ever makes to the hosting API is
    [FetchRelease] for the tag given last; and a run on at least one
    argument that does not end with status 0 ends with status 1, nothing
    written to standard output. *)
Theorem showRelease_read_only env flags (ps : list string) (noop : bool) :
  let r := run (showRelease env flags) (mkArgs ps noop) in
  Forall (fun e => is_api_call e = true -> exists p, e = EvFetchRelease p (List.last ps ""))
         (trace_of r) /\
  (ps <> [] ->
   outcome_of r = Exited 0 \/ (outcome_of r = Exited 1 /\ stdout_of (trace_of r) = [])).
Proof.
  cbv zeta. destruct noop; unfold run, init_state, showRelease; unfold_go; cbn;
    repeat (first [rewrite print_urls_run | case_scrutinee]; cbn);
    (split; [unfold trace_of; cbn [fst st_trace]; read_only_trace
            | intros Hne;
              first [left; reflexivity
                    | right; split; reflexivity
                    | exfalso; apply Hne; apply LastParam_missing; assumption]]).
Qed.

Lemma showRelease_read_only_witness :
  let r := run (showRelease sample_env no_flags) (mkArgs ["v1.0"] false) in
  ["v1.0"] <> [] /\
  (outcome_of r = Exited 0 \/ (outcome_of r = Exited 1 /\ stdout_of (trace_of r) = [])).
Proof.
  cbv zeta.
  assert (Hne : ["v1.0"] <> ([] : list string)) by discriminate.
  split; [exact Hne|].
  exact (proj2 (showRelease_read_only sample_env no_flags ["v1.0"] false) Hne).
Defined.

Lemma is_space2_lead (a b : ascii) : is_space2 a b = true -> is_space a = false.
Proof.
  unfold is_space2, is_space. intros H. apply andb_true_iff in H as [Ha _].
  apply Nat.eqb_eq in Ha. rewrite Ha. reflexivity.
Qed.

Lemma is_space3_lead (a b c : ascii) :
  is_space3 a b c = true -> is_space a = false /\ is_space2 a b = false.
Proof.
  unfold is_space3, is_space2, is_space. intros H.
  assert (Ha : nat_of_ascii a = 225%nat \/ nat_of_ascii a = 226%nat
               \/ nat_of_ascii a = 227%nat).
  { repeat (apply orb_true_iff in H as [H | H]);
      repeat (apply andb_true_iff in H as [H ?]);
      apply Nat.eqb_eq in H; auto. }
  destruct Ha as [-> | [-> | ->]]; split; reflexivity.
Qed.

(** [trim_left] drops a white prefix. *)
Lemma trim_left_split (s : string) : exists l, white l /\ s = l +:+ trim_left s.
Proof.
  assert (H : forall n s, (String.length s <= n)%nat ->
                          exists l, white l /\ s = l +:+ trim_left s).
  { clear s. induction n as [|n IH]; intros s Hn.
    - destruct s; [|cbn in Hn; lia]. exists "". split; [constructor | reflexivity].
    - destruct s as [|a r]; [exists ""; split; [constructor | reflexivity]|].
      cbn [trim_left]. destruct (is_space a) eqn:Ha.
      { destruct (IH r) as (l & Hl & E); [cbn in Hn; lia|].
        exists (String a l). split; [constructor; assumption|].
        change (String a l +:+ trim_left r) with (String a (l +:+ trim_left r)).
        rewrite <- E. reflexivity. }
      destruct r as [|b r2]; [exists ""; split; [constructor | reflexivity]|].
      destruct (is_space2 a b) eqn:Hab.
      { destruct (IH r2) as (l & Hl & E); [cbn in Hn; lia|].
        exists (String a (String b l)). split; [constructor; assumption|].
        change (String a (String b l) +:+ trim_left r2)
          with (String a (String b (l +:+ trim_left r2))).
        rewrite <- E. reflexivity. }
      destruct r2 as [|c r3]; [exists ""; split; [constructor | reflexivity]|].
      destruct (is_space3 a b c) eqn:Habc.
      { destruct (IH r3) as (l & Hl & E); [cbn in Hn; lia|].
        exists (String a (String b (String c l))). split; [constructor; assumption|].
        change (String a (String b (String c l)) +:+ trim_left r3)
          with (String a (String b (String c (l +:+ trim_left r3)))).
        rewrite <- E. reflexivity. }
      exists "". split; [constructor | reflexivity]. }
  exact (H (String.length s) s (Nat.le_refl _)).
Qed.

Lemma string_append_empty (s : string) : s +:+ "" = s.
Proof.
  induction s as [|c s IH]; [reflexivity|].
  change (String c s +:+ "") with (String c (s +:+ "")). rewrite IH. reflexivity.
Qed.

Lemma trim_left_white (s : string) : white s -> trim_left s = "".
Proof.
  induction 1 as [|a s Ha _ IH|a b s Hab _ IH|a b c s Habc _ IH].
  - reflexivity.
  - cbn [trim_left]. rewrite Ha. exact IH.
  - cbn [trim_left]. rewrite (is_space2_lead a b Hab), Hab. exact IH.
  - destruct (is_space3_lead a b c Habc) as [Ha Hab].
    cbn [trim_left]. rewrite Ha, Hab, Habc. exact IH.
Qed.

Lemma trim_left_empty (s : string) : trim_left s = "" -> white s.
Proof.
  intros H. destruct (trim_left_split s) as (l & Hl & E).
  rewrite H, string_append_empty in E. subst s. exact Hl.
Qed.

Lemma trim_left_idem (s : string) : trim_left (trim_left s) = trim_left s.
Proof.
  assert (H : forall n s, (String.length s <= n)%nat ->
                          trim_left (trim_left s) = trim_left s).
  { clear s. induction n as [|n IH]; intros s Hn.
    - destruct s; [reflexivity | cbn in Hn; lia].
    - destruct s as [|a r]; [reflexivity|].
      cbn [trim_left]. destruct (is_space a) eqn:Ha.
      { apply IH. cbn in Hn. lia. }
      destruct r as [|b r2]; [cbn [trim_left]; rewrite Ha; reflexivity|].
      destruct (is_space2 a b) eqn:Hab.
      { apply IH. cbn in Hn. lia. }
      destruct r2 as [|c r3]; [cbn [trim_left]; rewrite Ha, Hab; reflexivity|].
      destruct (is_space3 a b c) eqn:Habc.
      { apply IH. cbn in Hn. lia. }
      cbn [trim_left]. rewrite Ha, Hab, Habc. reflexivity. }
  exact (H (String.length s) s (Nat.le_refl _)).
Qed.

Lemma all_space_white (s : string) : all_space s = true <-> white s.
Proof.
  unfold all_space. rewrite String.eqb_eq. split; [apply trim_left_empty | apply trim_left_white].
Qed.

(** [trim_right] drops a white suffix. *)
Lemma trim_right_split (s : string) : exists r, white r /\ s = trim_right s +:+ r.
Proof.
  induction s as [|c s IH]; [exists ""; split; [constructor | reflexivity]|].
  cbn [trim_right]. destruct (all_space (String c s)) eqn:E.
  - exists (String c s). split; [apply all_space_white; exact E | reflexivity].
  - destruct IH as (r & Hr & Es). exists r. split; [exact Hr|].
    change (String c (trim_right s) +:+ r) with (String c (trim_right s +:+ r)).
    rewrite <- Es. reflexivity.
Qed.

Lemma trim_right_empty (s : string) : trim_right s = "" -> white s.
Proof.
  destruct s as [|c s]; [constructor|]. cbn [trim_right].
  destruct (all_space (String c s)) eqn:E; [|discriminate].
  intros _. apply all_space_white. exact E.
Qed.

Lemma TrimSpace_white (s : string) : strings_TrimSpace s = "" <-> white s.
Proof.
  unfold strings_TrimSpace. split.
  - intros H. apply trim_right_empty in H. apply trim_left_white in H.
    rewrite trim_left_idem in H. apply trim_left_empty. exact H.
  - intros H. rewrite (trim_left_white s H). reflexivity.
Qed.

Lemma TrimSpace_split (s : string) :
  exists l r, white l /\ white r /\ s = l +:+ strings_TrimSpace s +:+ r.
Proof.
  destruct (trim_left_split s) as (l & Hl & El).
  destruct (trim_right_split (trim_left s)) as (r & Hr & Er).
  exists l, r. split; [exact Hl|]. split; [exact Hr|].
  unfold strings_TrimSpace. rewrite <- Er. exact El.
Qed.

Lemma string_length_append (a b : string) :
  String.length (a +:+ b) = (String.length a + String.length b)%nat.
Proof.
  induction a as [|c a IH]; [reflexivity|].
  change (String c a +:+ b) with (String c (a +:+ b)). cbn [String.length]. rewrite IH. reflexivity.
Qed.

Lemma white_app (a b : string) : white a -> white b -> white (a +:+ b).
Proof.
  intros Ha Hb. induction Ha as [|x s Hx _ IH|x y s Hxy _ IH|x y z s Hxyz _ IH].
  - exact Hb.
  - change (String x s +:+ b) with (String x (s +:+ b)). constructor; assumption.
  - change (String x (String y s) +:+ b) with (String x (String y (s +:+ b))).
    constructor; assumption.
  - change (String x (String y (String z s)) +:+ b)
      with (String x (String y (String z (s +:+ b)))).
    constructor; assumption.
Qed.

Lemma trim_left_shorter (s : string) : (String.length (trim_left s) <= String.length s)%nat.
Proof.
  destruct (trim_left_split s) as (l & _ & E).
  rewrite E at 2. rewrite string_length_append. lia.
Qed.

(** What [trim_left] returns does not start with white space. *)
Lemma trim_left_clean (s w rest : string) :
  white w -> trim_left s = w +:+ rest -> w = "".
Proof.
  intros Hw E. pose proof (trim_left_idem s) as Hi. rewrite E in Hi.
  destruct Hw as [|a u Ha Hu|a b u Hab Hu|a b c u Habc Hu]; [reflexivity| | |]; exfalso.
  - change (String a u +:+ rest) with (String a (u +:+ rest)) in Hi.
    cbn [trim_left] in Hi. rewrite Ha in Hi.
    pose proof (trim_left_shorter (u +:+ rest)) as L. rewrite Hi in L. cbn in L. lia.
  - change (String a (String b u) +:+ rest) with (String a (String b (u +:+ rest))) in Hi.
    cbn [trim_left] in Hi. rewrite (is_space2_lead a b Hab), Hab in Hi.
    pose proof (trim_left_shorter (u +:+ rest)) as L. rewrite Hi in L. cbn in L. lia.
  - change (String a (String b (String c u)) +:+ rest)
      with (String a (String b (String c (u +:+ rest)))) in Hi.
    destruct (is_space3_lead a b c Habc) as [Ha Hab].
    cbn [trim_left] in Hi. rewrite Ha, Hab, Habc in Hi.
    pose proof (trim_left_shorter (u +:+ rest)) as L. rewrite Hi in L. cbn in L. lia.
Qed.

Lemma trim_right_prefix (s : string) : exists r, s = trim_right s +:+ r.
Proof. destruct (trim_right_split s) as (r & _ & E). exists r. exact E. Qed.

Lemma trim_right_white_suffix (p u : string) :
  white u -> (String.length (trim_right (p +:+ u)) <= String.length p)%nat.
Proof.
  intros Hu. induction p as [|c p IH].
  - change ("" +:+ u) with u. destruct u as [|c u]; [cbn; lia|].
    cbn [trim_right]. apply all_space_white in Hu. rewrite Hu. cbn. lia.
  - change (String c p +:+ u) with (String c (p +:+ u)). cbn [trim_right].
    destruct (all_space (String c (p +:+ u))); cbn [String.length]; lia.
Qed.

(** What [trim_right] returns does not end with white space. *)
Lemma trim_right_clean (s w pre : string) :
  white w -> trim_right s = pre +:+ w -> w = "".
Proof.
  intros Hw E. destruct (trim_right_split s) as (r & Hr & Es).
  rewrite E, string_append_assoc in Es.
  pose proof (trim_right_white_suffix pre (w +:+ r) (white_app w r Hw Hr)) as L.
  rewrite <- Es, E, string_length_append in L.
  destruct w; [reflexivity | cbn in L; lia].
Qed.

Lemma TrimSpace_clean (s : string) :
  (forall w rest, white w -> strings_TrimSpace s = w +:+ rest -> w = "") /\
  (forall w pre, white w -> strings_TrimSpace s = pre +:+ w -> w = "").
Proof.
  unfold strings_TrimSpace. split.
  - intros w rest Hw E.
    destruct (trim_right_prefix (trim_left s)) as (r & Er).
    rewrite E, string_append_assoc in Er.
    exact (trim_left_clean s w _ Hw Er).
  - intros w pre Hw E. exact (trim_right_clean _ w pre Hw E).
Qed.

(** X7.  Without [--show-downloads], [showRelease] prints the title line
    alone when the body of the release is made of white space only, and the
    title line followed by the trimmed body otherwise.  The trimmed body is
    the body without the white space at its two ends: it is what stands
    between a white prefix and a white suffix of the body, and neither
    starts nor ends with a white-space character. *)
Theorem showRelease_blank_body env flags (ps : list string)
        (project : Project) (release : Release) :
  let tagName := List.last ps "" in
  let r := run (showRelease env flags) (mkArgs ps false) in
  let header := Name release +:+ " (" +:+ TagName release +:+ ")" +:+ nl in
  let body := strings_TrimSpace (Body release) in
  tagName <> "" ->
  env_LocalRepo env = None ->
  env_MainProject env = Ok project ->
  env_FetchRelease env project tagName = Ok release ->
  flagReleaseShowDownloads flags = false ->
  (white (Body release) -> stdout_of (trace_of r) = [header]) /\
  (~ white (Body release) ->
   stdout_of (trace_of r) = [header; nl +:+ body +:+ nl] /\ body <> "") /\
  (exists before after,
      white before /\ white after /\ Body release = before +:+ body +:+ after) /\
  (forall w rest, white w -> body = w +:+ rest -> w = "") /\
  (forall w pre, white w -> body = pre +:+ w -> w = "").
Proof.
  cbv zeta. intros Htag Hrepo Hproject Hfetch Hflag.
  rewrite (showRelease_real_run env flags ps project release Htag Hrepo Hproject Hfetch).
  unfold trace_of. cbn [fst st_trace]. rewrite Hflag. unfold show_lines.
  split; [|split; [|split; [apply TrimSpace_split | apply TrimSpace_clean]]]; intros Hb.
  - apply TrimSpace_white in Hb. rewrite Hb. reflexivity.
  - assert (Hne : strings_TrimSpace (Body release) <> "").
    { intros F. apply TrimSpace_white in F. contradiction. }
    split; [|exact Hne]. apply String.eqb_neq in Hne. rewrite Hne. reflexivity.
Qed.

Lemma showRelease_blank_body_witness :
  let release := mkRelease "First release" "v1.0" "master" (nbsp +:+ " " +:+ nl)
                           false false [] "" "" "" in
  let env := mkEnv None (Ok sample_project) (Ok sample_project) (Ok "master")
                   (fun _ _ => Ok release) (env_CreateRelease sample_env)
                   (env_UploadReleaseAsset sample_env) "#"
                   (env_renderReleaseTpl sample_env) (env_NewEditor sample_env)
                   (env_EditTitleAndBody sample_env) (env_readMsg sample_env)
                   (env_readMsgFromFile sample_env) (env_ExpandRemoteUrl sample_env)
                   (env_SysExec sample_env) "" (fun s => s) sample_registry in
  List.last ["v1.0"] "" <> "" /\
  white (Body release) /\
  stdout_of (trace_of (run (showRelease env no_flags) (mkArgs ["v1.0"] false)))
  = ["First release (v1.0)" +:+ nl].
Proof.
  intros release env.
  assert (Htag : List.last ["v1.0"] "" <> "") by discriminate.
  assert (Hw : white (Body release)).
  { apply white_2; [reflexivity|]. apply white_1; [reflexivity|].
    apply white_1; [reflexivity|]. apply white_empty. }
  split; [exact Htag|]. split; [exact Hw|].
  exact (proj1 (showRelease_blank_body env no_flags ["v1.0"] sample_project release
                  Htag eq_refl eq_refl eq_refl eq_refl) Hw).
Defined.

(** ** release create: what is sent, and what is never done *)

Lemma Forall_would_attach (P : Event -> Prop) (assets : list string) :
  (forall s, P (EvStderr s)) -> Forall P (map would_attach assets).
Proof.
  intros H. induction assets as [|a l IH]; cbn [map]; constructor; [|exact IH].
  destruct (would_attach_stderr a) as [s ->]. apply H.
Qed.

Lemma Forall_upload_trace (P : Event -> Prop) env (r : Release) (assets : list string) :
  (forall s, P (EvStderr s)) ->
  (forall asset label, P (EvUploadReleaseAsset (Some r) asset label)) ->
  Forall P (fst (upload_trace env r assets)).
Proof.
  intros Hp Hu. induction assets as [|token rest IH]; cbn [upload_trace]; [constructor|].
  generalize (split_asset token). intros [asset label]. cbn [fst snd].
  destruct (env_UploadReleaseAsset env r asset label) as [e|]; cbn [fst app];
    repeat (constructor; [first [apply Hp | apply Hu] |]); [constructor | exact IH].
Qed.

Ltac exec_createRelease :=
  unfold run, init_state, createRelease; unfold_go; run_handler;
  unfold trace_of; cbn [fst snd st_trace st_deferred].

(** [every_event leaf]: the trace at hand, event by event; [leaf] settles
    one event. *)
Ltac every_event leaf :=
  repeat first
    [ exact (List.Forall_nil _)
    | apply Forall_app; split
    | apply Forall_would_attach; intros ?; leaf
    | apply Forall_upload_trace; [intros ?; leaf | intros ? ?; leaf]
    | constructor; [leaf |] ].

Ltac flag_absurd :=
  match goal with
  | H1 : String.eqb ?x ?y = true, H2 : ?x <> ?y |- _ =>
      exfalso; apply H2; apply String.eqb_eq; exact H1
  | H1 : String.eqb ?x ?y = false, H2 : ?x = ?y |- _ =>
      exfalso; apply String.eqb_neq in H1; exact (H1 H2)
  | H1 : negb (String.eqb ?x ?y) = false, H2 : ?x <> ?y |- _ =>
      exfalso; apply H2; apply String.eqb_eq; apply negb_false_iff; exact H1
  | H1 : negb (String.eqb ?x ?y) = true, H2 : ?x = ?y |- _ =>
      exfalso; apply negb_true_iff in H1; apply String.eqb_neq in H1; exact (H1 H2)
  end.

Ltac request_leaf :=
  let p := fresh "p" in
  let params := fresh "params" in
  let Heq := fresh "Heq" in
  intros p params Heq;
  first [ discriminate Heq
        | inversion Heq; subst; cbn [TagName Name Draft Prerelease Assets];
          repeat split;
          first [ reflexivity | assumption | apply String.eqb_neq; assumption ] ].

(** X8.  Whenever [createRelease] asks the API to create a release, the latch
    is not set, the project is the current project, the tag name is the
    last argument and is not empty, the title is not empty, and the draft
    and prerelease marks are those of the flags. *)
Theorem createRelease_request env flags (ps : list string) (noop : bool) :
  forall p params,
    In (EvCreateRelease p params)
       (trace_of (run (createRelease env flags) (mkArgs ps noop))) ->
    noop = false /\
    env_CurrentProject env = Ok p /\
    TagName params = List.last ps "" /\
    TagName params <> "" /\
    Name params <> "" /\
    Draft params = flagReleaseDraft flags /\
    Prerelease params = flagReleasePrerelease flags.
Proof.
  intros p params HIn. revert p params HIn.
  assert (H : Forall (fun e => forall p params,
                          e = EvCreateRelease p params ->
                          noop = false /\
                          env_CurrentProject env = Ok p /\
                          TagName params = List.last ps "" /\
                          TagName params <> "" /\
                          Name params <> "" /\
                          Draft params = flagReleaseDraft flags /\
                          Prerelease params = flagReleasePrerelease flags)
                     (trace_of (run (createRelease env flags) (mkArgs ps noop)))).
  { destruct noop; exec_createRelease; every_event request_leaf. }
  intros p params HIn. rewrite Forall_forall in H.
  apply (H _ (proj2 (list_elem_of_In _ _) HIn)). reflexivity.
Qed.

Lemma createRelease_request_witness :
  let params := release_params message_flags "Release 1.0" "v1.0" "master" "" in
  In (EvCreateRelease sample_project params)
     (trace_of (run (createRelease sample_env message_flags) (mkArgs ["v1.0"] false))) /\
  env_CurrentProject sample_env = Ok sample_project /\
  TagName params <> "" /\ Name params <> "".
Proof.
  intros params.
  assert (HIn : In (EvCreateRelease sample_project params)
                   (trace_of (run (createRelease sample_env message_flags)
                                  (mkArgs ["v1.0"] false)))).
  { vm_compute. do 4 right. left. reflexivity. }
  split; [exact HIn|].
  destruct (createRelease_request sample_env message_flags ["v1.0"] false _ _ HIn)
    as (_ & Hp & _ & Ht & Hn & _).
  split; [exact Hp|]. split; [exact Ht | exact Hn].
Defined.

Ltac commitish_leaf :=
  split;
  [ let Hne := fresh "Hne" in
    let F := fresh "F" in
    intros Hne F; first [ discriminate F | flag_absurd ]
  | let p := fresh "p" in
    let params := fresh "params" in
    let Heq := fresh "Heq" in
    intros p params Heq;
    first [ discriminate Heq
          | inversion Heq; subst; cbn [TargetCommitish];
            split; intros ?; first [ reflexivity | assumption | flag_absurd ] ] ].

(** X9.  With [--commitish] given, [createRelease] never asks for the current
    branch and the release targets the given value; without it the release
    targets the current branch. *)
Theorem createRelease_target_commitish env flags (ps : list string) (noop : bool) :
  let t := trace_of (run (createRelease env flags) (mkArgs ps noop)) in
  (flagReleaseCommitish flags <> "" -> ~ In EvCurrentBranch t) /\
  forall p params,
    In (EvCreateRelease p params) t ->
    (flagReleaseCommitish flags <> "" ->
     TargetCommitish params = flagReleaseCommitish flags) /\
    (flagReleaseCommitish flags = "" ->
     env_CurrentBranch env = Ok (TargetCommitish params)).
Proof.
  cbv zeta.
  assert (H : Forall (fun e =>
                        (flagReleaseCommitish flags <> "" -> e <> EvCurrentBranch) /\
                        forall p params,
                          e = EvCreateRelease p params ->
                          (flagReleaseCommitish flags <> "" ->
                           TargetCommitish params = flagReleaseCommitish flags) /\
                          (flagReleaseCommitish flags = "" ->
                           env_CurrentBranch env = Ok (TargetCommitish params)))
                     (trace_of (run (createRelease env flags) (mkArgs ps noop)))).
  { destruct noop; exec_createRelease; every_event commitish_leaf. }
  rewrite Forall_forall in H. split.
  - intros Hne HIn. apply (proj1 (H _ (proj2 (list_elem_of_In _ _) HIn)) Hne). reflexivity.
  - intros p params HIn.
    exact (proj2 (H _ (proj2 (list_elem_of_In _ _) HIn)) p params eq_refl).
Qed.

Ltac message_leaf :=
  split;
  [ first [ reflexivity | flag_absurd ]
  | let p := fresh "p" in
    let params := fresh "params" in
    let Heq := fresh "Heq" in
    intros p params Heq;
    first [ discriminate Heq
          | flag_absurd
          | inversion Heq; subst; cbn [Name Body]; split; reflexivity ] ].

(** X10.  With [--message] given, [createRelease] reads no message file and
    opens no editor, also when [--file] is given too; the title and body of
    the release are those [readMsg] makes of the message. *)
Theorem createRelease_message_first env flags (ps : list string) (noop : bool) :
  let t := trace_of (run (createRelease env flags) (mkArgs ps noop)) in
  flagReleaseMessage flags <> "" ->
  (forall e, In e t -> is_message_source e = false) /\
  forall p params,
    In (EvCreateRelease p params) t ->
    Name params = fst (env_readMsg env (flagReleaseMessage flags)) /\
    Body params = snd (env_readMsg env (flagReleaseMessage flags)).
Proof.
  cbv zeta. intros Hm.
  assert (H : Forall (fun e =>
                        is_message_source e = false /\
                        forall p params,
                          e = EvCreateRelease p params ->
                          Name params = fst (env_readMsg env (flagReleaseMessage flags)) /\
                          Body params = snd (env_readMsg env (flagReleaseMessage flags)))
                     (trace_of (run (createRelease env flags) (mkArgs ps noop)))).
  { destruct noop; exec_createRelease; every_event message_leaf. }
  rewrite Forall_forall in H. split.
  - intros e HIn. exact (proj1 (H _ (proj2 (list_elem_of_In _ _) HIn))).
  - intros p params HIn.
    exact (proj2 (H _ (proj2 (list_elem_of_In _ _) HIn)) p params eq_refl).
Qed.

Ltac kept_leaf := discriminate.

(** X12.  [createRelease] never deletes the file of the editor: the outer
    [editor] variable is never assigned, so the deferred [DeleteFile] is
    never registered, in any run. *)
Theorem createRelease_editor_file_kept env flags (ps : list string) (noop : bool) :
  let r := run (createRelease env flags) (mkArgs ps noop) in
  ~ In EvEditorDeleteFile (trace_of r) /\ st_deferred (fst r) = [].
Proof.
  cbv zeta.
  assert (H : Forall (fun e => e <> EvEditorDeleteFile)
                     (trace_of (run (createRelease env flags) (mkArgs ps noop))) /\
              st_deferred (fst (run (createRelease env flags) (mkArgs ps noop))) = []).
  { destruct noop; exec_createRelease; (split; [every_event kept_leaf | reflexivity]). }
  destruct H as [H Hd]. split; [|exact Hd].
  intros HIn. rewrite Forall_forall in H.
  apply (H _ (proj2 (list_elem_of_In _ _) HIn)). reflexivity.
Qed.

Lemma createRelease_target_commitish_witness :
  let t := trace_of (run (createRelease sample_env commitish_flags)
                         (mkArgs ["v1.0"] false)) in
  let params := mkRelease "Release 1.0" "v1.0" "stable" "" true true [] "" "" "" in
  flagReleaseCommitish commitish_flags <> "" /\
  In (EvCreateRelease sample_project params) t /\
  ~ In EvCurrentBranch t /\
  TargetCommitish params = "stable".
Proof.
  intros t params.
  assert (Hne : flagReleaseCommitish commitish_flags <> "") by discriminate.
  assert (HIn : In (EvCreateRelease sample_project params) t).
  { vm_compute. do 3 right. left. reflexivity. }
  destruct (createRelease_target_commitish sample_env commitish_flags ["v1.0"] false)
    as [Hno Hpar].
  split; [exact Hne|]. split; [exact HIn|]. split; [exact (Hno Hne)|].
  exact (proj1 (Hpar _ _ HIn) Hne).
Defined.

Lemma createRelease_message_first_witness :
  let t := trace_of (run (createRelease sample_env commitish_flags)
                         (mkArgs ["v1.0"] false)) in
  flagReleaseMessage commitish_flags <> "" /\
  flagReleaseFile commitish_flags <> "" /\
  forall e, In e t -> is_message_source e = false.
Proof.
  intros t.
  assert (Hne : flagReleaseMessage commitish_flags <> "") by discriminate.
  split; [exact Hne|]. split; [discriminate|].
  exact (proj1 (createRelease_message_first sample_env commitish_flags ["v1.0"] false Hne)).
Defined.

Lemma uploads_of_app (t1 t2 : list Event) : uploads_of (t1 ++ t2) = uploads_of t1 ++ uploads_of t2.
Proof. unfold uploads_of. apply flat_map_app. Qed.

Lemma upload_trace_prefix env (r : Release) (assets : list string) :
  exists attempted skipped,
    assets = attempted ++ skipped /\
    uploads_of (fst (upload_trace env r assets)) = map split_asset attempted /\
    ((skipped = [] /\ forallb (upload_ok env r) attempted = true /\
      snd (upload_trace env r assets) = Returned tt)
     \/
     (exists done bad,
         attempted = done ++ [bad] /\ forallb (upload_ok env r) done = true /\
         upload_ok env r bad = false /\
         snd (upload_trace env r assets) = Exited 1)).
Proof.
  induction assets as [|token rest IH].
  - exists [], []. cbn. split; [reflexivity|]. split; [reflexivity|]. left. auto.
  - cbn [upload_trace]. unfold upload_ok in *.
    destruct (env_UploadReleaseAsset env r (fst (split_asset token))
                                     (snd (split_asset token))) as [e|] eqn:E.
    + exists [token], rest. cbn [fst snd]. split; [reflexivity|]. split.
      * unfold uploads_of. cbn [flat_map app map].
        destruct (split_asset token); reflexivity.
      * right. exists [], token. cbn [app forallb]. rewrite E. auto.
    + destruct IH as (attempted & skipped & Hsplit & Hup & Hend).
      exists (token :: attempted), skipped. cbn [fst snd]. split; [rewrite Hsplit; reflexivity|].
      split.
      * change (uploads_of
                  ([EvStderr ("Attaching release asset `" +:+ fst (split_asset token)
                              +:+ "'..." +:+ nl);
                    EvUploadReleaseAsset (Some r) (fst (split_asset token))
                                         (snd (split_asset token))]
                   ++ fst (upload_trace env r rest))
                = map split_asset (token :: attempted)).
        rewrite uploads_of_app, Hup. unfold uploads_of at 1. cbn [flat_map app map].
        destruct (split_asset token); reflexivity.
      * destruct Hend as [(-> & Hall & Hret) | (done & bad & -> & Hall & Hbad & Hexit)].
        -- left. split; [reflexivity|]. split; [|exact Hret].
           cbn [forallb]. rewrite E. exact Hall.
        -- right. exists (token :: done), bad. split; [reflexivity|].
           split; [cbn [app forallb]; rewrite E; exact Hall|].
           split; [exact Hbad | exact Hexit].
Qed.

(** X15.  [uploadAssets] uploads the assets in the order given, each once,
    with the file name and label of its token, and stops at the first
    upload that fails: the assets after it are not attempted. *)
Theorem uploadAssets_stops_at_first_failure env (r : Release) (assets ps : list string) :
  let res := run (uploadAssets env (Some r) assets) (mkArgs ps false) in
  exists attempted skipped,
    assets = attempted ++ skipped /\
    uploads_of (trace_of res) = map split_asset attempted /\
    ((skipped = [] /\ forallb (upload_ok env r) attempted = true /\
      outcome_of res = Returned tt)
     \/
     (exists done bad,
         attempted = done ++ [bad] /\ forallb (upload_ok env r) done = true /\
         upload_ok env r bad = false /\
         outcome_of res = Exited 1)).
Proof.
  cbv zeta. unfold run, init_state. rewrite uploadAssets_real.
  destruct (upload_trace_prefix env r assets) as (attempted & skipped & Hs & Hu & Hend).
  exists attempted, skipped. split; [exact Hs|].
  destruct Hend as [(Hsk & Hall & Hret) | (done & bad & Hd & Hall & Hbad & Hexit)].
  - rewrite Hret. unfold trace_of, outcome_of. cbn [fst snd st_trace st_deferred app].
    rewrite app_nil_r. split; [exact Hu|]. left. auto.
  - rewrite Hexit. unfold trace_of, outcome_of. cbn [fst snd st_trace app].
    split; [exact Hu|]. right. exists done, bad. auto.
Qed.

Lemma createRelease_real_created env flags (ps : list string) (p : Project) (params : Release) :
  In (EvCreateRelease p params)
     (trace_of (run (createRelease env flags) (mkArgs ps false))) ->
  exists pre,
    forallb is_lookup pre = true /\
    run (createRelease env flags) (mkArgs ps false)
    = match env_CreateRelease env p params with
      | Err e =>
          (mkState (mkArgs ps false)
                   (pre ++ [EvCreateRelease p params; EvStderr (e +:+ nl)]) [],
           Exited 1)
      | Ok r =>
          (mkState (mkArgs ps false)
                   (pre ++ EvCreateRelease p params
                        :: EvStdout (HtmlUrl r +:+ nl)
                        :: fst (upload_trace env r (flagReleaseAssets flags))) [],
           then_exit 0 (snd (upload_trace env r (flagReleaseAssets flags))))
      end.
Proof.
  intros HIn.
  destruct (createRelease_shape env flags ps)
    as [(_ & _ & Hreal)
       | [(pre & e & Hpre & _ & _ & Hreal)
         | (pre & project & title & body & commitish & Hpre & _ & _ & Hreal)]].
  - exfalso. rewrite Hreal in HIn. exact HIn.
  - exfalso. rewrite Hreal in HIn. unfold trace_of in HIn. cbn [fst st_trace] in HIn.
    apply in_app_or in HIn as [HIn | [HIn | []]]; [|discriminate HIn].
    pose proof (lookups_not_create pre Hpre) as Hc. rewrite Forall_forall in Hc.
    apply list_elem_of_In in HIn. specialize (Hc _ HIn). discriminate Hc.
  - cbv zeta in Hreal. exists pre. split; [exact Hpre|].
    assert (Hsame : p = project /\
                    params = release_params flags title (List.last ps "") commitish body).
    { rewrite Hreal in HIn.
      pose proof (lookups_not_create pre Hpre) as Hc. rewrite Forall_forall in Hc.
      destruct (env_CreateRelease env project
                  (release_params flags title (List.last ps "") commitish body))
        as [r|e]; unfold trace_of in HIn; cbn [fst st_trace] in HIn;
        apply in_app_or in HIn as [HIn | HIn].
      - apply list_elem_of_In in HIn. specialize (Hc _ HIn). discriminate Hc.
      - destruct HIn as [HIn | [HIn | HIn]]; [inversion HIn; auto | discriminate HIn |].
        pose proof (upload_trace_not_create env r (flagReleaseAssets flags)) as Hu.
        rewrite Forall_forall in Hu. apply list_elem_of_In in HIn.
        specialize (Hu _ HIn). discriminate Hu.
      - apply list_elem_of_In in HIn. specialize (Hc _ HIn). discriminate Hc.
      - destruct HIn as [HIn | [HIn | []]]; [inversion HIn; auto | discriminate HIn]. }
    destruct Hsame as [-> ->]. exact Hreal.
Qed.

Lemma uploads_of_lookups (pre : list Event) :
  forallb is_lookup pre = true -> uploads_of pre = [].
Proof.
  induction pre as [|e pre IH]; [reflexivity|].
  cbn [forallb]. intros H. apply andb_true_iff in H as [He Hp].
  unfold uploads_of in *. cbn [flat_map]. rewrite (IH Hp).
  destruct e; try reflexivity; discriminate He.
Qed.

(** X13.  When the API refuses to create the release, [createRelease] prints
    the error, uploads no asset, writes nothing to standard output and the
    process ends with status 1. *)
Theorem createRelease_create_failure env flags (ps : list string)
        (p : Project) (params : Release) (e : error) :
  let r := run (createRelease env flags) (mkArgs ps false) in
  In (EvCreateRelease p params) (trace_of r) ->
  env_CreateRelease env p params = Err e ->
  outcome_of r = Exited 1 /\
  stdout_of (trace_of r) = [] /\
  uploads_of (trace_of r) = [] /\
  exists pre, trace_of r = pre ++ [EvCreateRelease p params; EvStderr (e +:+ nl)].
Proof.
  cbv zeta. intros HIn Herr.
  destruct (createRelease_real_created env flags ps p params HIn) as (pre & Hpre & Hrun).
  rewrite Herr in Hrun. rewrite Hrun. unfold trace_of, outcome_of. cbn [fst snd st_trace].
  split; [reflexivity|]. split.
  - rewrite stdout_of_app, (lookups_no_stdout pre Hpre). reflexivity.
  - split; [|exists pre; reflexivity].
    rewrite uploads_of_app, (uploads_of_lookups pre Hpre). reflexivity.
Qed.

Lemma stdout_of_upload_trace env (r : Release) (assets : list string) :
  stdout_of (fst (upload_trace env r assets)) = [].
Proof.
  induction assets as [|token rest IH]; [reflexivity|].
  cbn [upload_trace].
  destruct (env_UploadReleaseAsset env r (fst (split_asset token)) (snd (split_asset token)));
    cbn [fst]; rewrite stdout_of_app; [reflexivity|].
  rewrite IH. reflexivity.
Qed.

(** X14.  When the release is created, the only line on standard output is
    its URL; the process ends with status 0, every asset uploaded in order,
    when all uploads succeed, and with status 1 as soon as one fails. *)
Theorem createRelease_prints_url env flags (ps : list string)
        (p : Project) (params r : Release) :
  let res := run (createRelease env flags) (mkArgs ps false) in
  In (EvCreateRelease p params) (trace_of res) ->
  env_CreateRelease env p params = Ok r ->
  stdout_of (trace_of res) = [HtmlUrl r +:+ nl] /\
  (forallb (upload_ok env r) (flagReleaseAssets flags) = true ->
   outcome_of res = Exited 0 /\
   uploads_of (trace_of res) = map split_asset (flagReleaseAssets flags)) /\
  (forallb (upload_ok env r) (flagReleaseAssets flags) = false ->
   outcome_of res = Exited 1).
Proof.
  cbv zeta. intros HIn Hok.
  destruct (createRelease_real_created env flags ps p params HIn) as (pre & Hpre & Hrun).
  rewrite Hok in Hrun. rewrite Hrun. unfold trace_of, outcome_of. cbn [fst snd st_trace].
  split.
  { rewrite stdout_of_app, (lookups_no_stdout pre Hpre).
    change (EvCreateRelease p params :: EvStdout (HtmlUrl r +:+ nl)
              :: fst (upload_trace env r (flagReleaseAssets flags)))
      with ([EvCreateRelease p params; EvStdout (HtmlUrl r +:+ nl)]
              ++ fst (upload_trace env r (flagReleaseAssets flags))).
    rewrite stdout_of_app, stdout_of_upload_trace. reflexivity. }
  destruct (upload_trace_prefix env r (flagReleaseAssets flags))
    as (attempted & skipped & Hs & Hu & Hend).
  split; intros Hall.
  - destruct Hend as [(-> & _ & Hret) | (done & bad & -> & _ & Hbad & _)].
    + rewrite Hret. split; [reflexivity|].
      rewrite app_nil_r in Hs. subst attempted.
      rewrite uploads_of_app, (uploads_of_lookups pre Hpre).
      change (EvCreateRelease p params :: EvStdout (HtmlUrl r +:+ nl)
                :: fst (upload_trace env r (flagReleaseAssets flags)))
        with ([EvCreateRelease p params; EvStdout (HtmlUrl r +:+ nl)]
                ++ fst (upload_trace env r (flagReleaseAssets flags))).
      rewrite uploads_of_app, Hu. reflexivity.
    + exfalso. rewrite Hs in Hall. rewrite forallb_forall in Hall.
      assert (upload_ok env r bad = true) as Hgood.
      { apply Hall. apply in_or_app. left. apply in_or_app. right. left. reflexivity. }
      congruence.
  - destruct Hend as [(-> & Hok' & _) | (done & bad & -> & _ & _ & Hexit)].
    + rewrite app_nil_r in Hs. subst attempted. congruence.
    + rewrite Hexit. reflexivity.
Qed.

Lemma createRelease_create_failure_witness :
  let params := release_params message_flags "Release 1.0" "v1.0" "master" "" in
  let r := run (createRelease refusing_env message_flags) (mkArgs ["v1.0"] false) in
  In (EvCreateRelease sample_project params) (trace_of r) /\
  env_CreateRelease refusing_env sample_project params = Err "Validation Failed" /\
  outcome_of r = Exited 1 /\
  uploads_of (trace_of r) = [].
Proof.
  intros params r.
  assert (HIn : In (EvCreateRelease sample_project params) (trace_of r)).
  { vm_compute. do 4 right. left. reflexivity. }
  split; [exact HIn|]. split; [reflexivity|].
  destruct (createRelease_create_failure refusing_env message_flags ["v1.0"]
              sample_project params "Validation Failed" HIn eq_refl)
    as (Ho & _ & Hu & _).
  split; [exact Ho | exact Hu].
Defined.

Lemma createRelease_prints_url_witness :
  let params := release_params message_flags "Release 1.0" "v1.0" "master" "" in
  let created := mkRelease "Release 1.0" "v1.0" "master" "" false false [] "" ""
                           "https://github.com/octocat/hello/releases/v1.0" in
  let res := run (createRelease sample_env message_flags) (mkArgs ["v1.0"] false) in
  In (EvCreateRelease sample_project params) (trace_of res) /\
  env_CreateRelease sample_env sample_project params = Ok created /\
  forallb (upload_ok sample_env created) (flagReleaseAssets message_flags) = false /\
  stdout_of (trace_of res) = [HtmlUrl created +:+ nl] /\
  outcome_of res = Exited 1.
Proof.
  intros params created res.
  assert (HIn : In (EvCreateRelease sample_project params) (trace_of res)).
  { vm_compute. do 4 right. left. reflexivity. }
  split; [exact HIn|]. split; [reflexivity|]. split; [reflexivity|].
  destruct (createRelease_prints_url sample_env message_flags ["v1.0"]
              sample_project params created HIn eq_refl) as (Hs & _ & Hf).
  split; [exact Hs | exact (Hf eq_refl)].
Defined.

(** ** The asset token *)

Lemma cut_some (c : ascii) (s before after : string) :
  cut (String c EmptyString) s = Some (before, after) ->
  s = before +:+ String c after /\ occurs c before = false.
Proof.
  revert before. induction s as [|x r IH]; intros before H.
  - cbn in H. discriminate H.
  - cbn [cut] in H. rewrite prefix_char in H.
    destruct (Ascii.eqb x c) eqn:Ex.
    + apply Ascii.eqb_eq in Ex. subst x. cbn in H. inversion H; subst.
      split; reflexivity.
    + destruct (cut (String c EmptyString) r) as [[b a]|] eqn:Er; [|discriminate H].
      inversion H; subst. destruct (IH b eq_refl) as [-> Hb].
      split; [reflexivity|]. cbn [occurs]. rewrite Ex, Hb. reflexivity.
Qed.

Lemma cut_none (c : ascii) (s : string) :
  cut (String c EmptyString) s = None -> occurs c s = false.
Proof.
  induction s as [|x r IH]; intros H; [reflexivity|].
  cbn [cut] in H. rewrite prefix_char in H.
  destruct (Ascii.eqb x c) eqn:Ex; [discriminate H|].
  destruct (cut (String c EmptyString) r) as [[b a]|] eqn:Er; [discriminate H|].
  cbn [occurs]. rewrite Ex, (IH eq_refl). reflexivity.
Qed.

(** X16.  The file name [uploadAssets] takes from a token never contains [#];
    a token without [#] is the file name, with an empty label, and a token
    with one is the file name, [#] and the label put together again (the
    label keeps any further [#]). *)
Theorem split_asset_rejoins (token : string) :
  let asset := fst (split_asset token) in
  let label := snd (split_asset token) in
  occurs "#" asset = false /\
  ((occurs "#" token = false /\ asset = token /\ label = "")
   \/ (occurs "#" token = true /\ token = asset +:+ "#" +:+ label)).
Proof.
  cbv zeta. unfold split_asset, strings_SplitN.
  change (Z.to_nat 2) with 2%nat. change (2 =? 0) with false. change (2 <? 0) with false.
  cbv beta iota. cbn [SplitN_upto].
  destruct (cut "#" token) as [[b a]|] eqn:E.
  - destruct (cut_some "#" token b a E) as [-> Hb]. cbn [length nth fst snd].
    change (1 <? Z.of_nat 2) with true. cbv iota.
    split; [exact Hb|]. right. split; [|reflexivity].
    clear E. induction b as [|x b IH]; [reflexivity|].
    cbn [occurs] in Hb. apply orb_false_iff in Hb as [_ Hb].
    change (String x b +:+ String "#" a) with (String x (b +:+ String "#" a)).
    cbn [occurs]. rewrite (IH Hb). apply orb_true_r.
  - pose proof (cut_none "#" token E) as Hn. cbn [length nth fst snd].
    change (1 <? Z.of_nat 1) with false. cbv iota.
    split; [exact Hn|]. left. auto.
Qed.

(** ** remote: the other paths *)

(** X17.  With fewer than two arguments, or a first argument other than [add]
    and [set-url], [remote] resolves nothing and hands the arguments as they
    are to the external binary. *)
Theorem remote_passes_through env (ps : list string) (noop : bool) :
  (length ps < 2)%nat \/ (hd "" ps <> "add" /\ hd "" ps <> "set-url") ->
  run (remote env) (mkArgs ps noop)
  = (mkState (mkArgs ps noop)
             (EvSysExec "remote" ps :: check_events (env_SysExec env "remote" ps)) [],
     check_outcome (env_SysExec env "remote" ps)).
Proof.
  intros Hcond.
  destruct (remote_shape env ps) as (pre & argv & Hrun & [Hyes | (_ & -> & ->)]).
  - exfalso. destruct Hyes as (Hlen & Hkw & _).
    destruct Hcond as [Hshort | [Hadd Hset]]; [lia | tauto].
  - exact (Hrun noop).
Qed.

Lemma remote_passes_through_witness :
  (hd "" ["show"; "origin"] <> "add" /\ hd "" ["show"; "origin"] <> "set-url") /\
  run (remote sample_env) (mkArgs ["show"; "origin"] false)
  = (mkState (mkArgs ["show"; "origin"] false)
             (EvSysExec "remote" ["show"; "origin"]
                :: check_events (env_SysExec sample_env "remote" ["show"; "origin"])) [],
     check_outcome (env_SysExec sample_env "remote" ["show"; "origin"])).
Proof.
  assert (H : hd "" ["show"; "origin"] <> "add" /\ hd "" ["show"; "origin"] <> "set-url").
  { split; discriminate. }
  split; [exact H|].
  apply (remote_passes_through sample_env ["show"; "origin"] false). right. exact H.
Defined.

(** X18.  Every run of [remote] runs the external binary exactly once, on the
    container as the handler leaves it; when the launch fails the error is
    the only line on standard error and the process ends with status 1,
    otherwise the handler returns. *)
Theorem remote_runs_binary_once env (ps : list string) (noop : bool) :
  let r := run (remote env) (mkArgs ps noop) in
  List.filter is_exec (trace_of r) = [EvSysExec "remote" (args_of r)] /\
  match env_SysExec env "remote" (args_of r) with
  | None => outcome_of r = Returned tt /\ stderr_of (trace_of r) = []
  | Some e => outcome_of r = Exited 1 /\ stderr_of (trace_of r) = [e +:+ nl]
  end.
Proof.
  cbv zeta.
  destruct (remote_shape env ps) as (pre & argv & Hrun & Hpre).
  rewrite (Hrun noop). unfold trace_of, outcome_of, args_of.
  cbn [fst snd st_trace st_args Params].
  assert (Hp : List.filter is_exec pre = [] /\ stderr_of pre = []).
  { destruct Hpre as [(_ & _ & private & kept & owner & _ & -> & _) | (_ & -> & _)];
      split; reflexivity. }
  destruct Hp as [Hf Hs].
  rewrite List.filter_app, Hf. unfold stderr_of in *. rewrite flat_map_app, Hs.
  destruct (env_SysExec env "remote" argv) as [e|]; cbn; auto.
Qed.

Lemma existsb_dash_p (ps : list string) :
  existsb (String.eqb "-p") ps = true <-> In "-p" ps.
Proof.
  rewrite existsb_exists. split.
  - intros (x & Hx & E). apply String.eqb_eq in E. subst x. exact Hx.
  - intros H. exists "-p". split; [exact H | apply String.eqb_refl].
Qed.

(** X19.  When [remote] rewrites its arguments, the action keyword stays
    first, and the container grows by one token, or keeps its length when a
    [-p] was removed. *)
Theorem remote_keeps_action_first env (ps : list string) (noop : bool) :
  let forwarded := args_of (run (remote env) (mkArgs ps noop)) in
  (2 <= length ps)%nat ->
  hd "" ps = "add" \/ hd "" ps = "set-url" ->
  hd "" forwarded = hd "" ps /\
  length forwarded
  = (if existsb (String.eqb "-p") ps then length ps else S (length ps)).
Proof.
  cbv zeta. intros Hlen Hkw.
  destruct (remote_shape env ps) as (pre & argv & Hrun & [Hyes | Hno]).
  2:{ exfalso. apply (proj1 Hno). auto. }
  destruct Hyes as (_ & _ & private & kept & owner & Hshape & _ & ->).
  rewrite (Hrun noop). unfold args_of. cbn [fst st_args Params].
  destruct Hshape as [(-> & Hout & ->) | (-> & a & b & -> & Ha & Hab)].
  - assert (He : existsb (String.eqb "-p") (kept ++ [owner]) = false).
    { destruct (existsb (String.eqb "-p") (kept ++ [owner])) eqn:E; [|reflexivity].
      apply existsb_dash_p in E. contradiction. }
    rewrite He. split.
    + destruct kept as [|k kept]; [cbn in Hlen; lia | reflexivity].
    + rewrite !length_app. cbn [length]. lia.
  - assert (He : existsb (String.eqb "-p") (a ++ "-p" :: b) = true).
    { apply existsb_dash_p. apply in_or_app. right. left. reflexivity. }
    rewrite He. split.
    + destruct a as [|x a].
      * cbn [app hd] in Hkw. destruct Hkw as [F | F]; discriminate F.
      * cbn [app hd]. cbn [app] in Hab.
        destruct kept as [|k kept]; cbn [app] in Hab;
          injection Hab as Hx _; cbn [app hd]; symmetry; exact Hx.
    + assert (Hl : length (a ++ b) = length (kept ++ [owner])) by (rewrite Hab; reflexivity).
      rewrite !length_app in *. cbn [length] in *. lia.
Qed.

Lemma remote_keeps_action_first_witness :
  let ps := ["set-url"; "origin"; "-p"; "octocat"] in
  let forwarded := args_of (run (remote sample_env) (mkArgs ps false)) in
  (2 <= length ps)%nat /\
  (hd "" ps = "add" \/ hd "" ps = "set-url") /\
  hd "" forwarded = "set-url" /\
  length forwarded = 4%nat.
Proof.
  intros ps forwarded.
  assert (Hlen : (2 <= length ps)%nat) by (cbn; lia).
  assert (Hkw : hd "" ps = "add" \/ hd "" ps = "set-url") by (right; reflexivity).
  split; [exact Hlen|]. split; [exact Hkw|].
  exact (remote_keeps_action_first sample_env ps false Hlen Hkw).
Defined.

(** ** help: a topic *)

Lemma find_first (topic : string) (before after : list Command) (c : Command) :
  cmd_Name c = topic ->
  Forall (fun x => cmd_Name x <> topic) before ->
  find (fun x => String.eqb (cmd_Name x) topic) (before ++ c :: after) = Some c.
Proof.
  intros Hc Hb. induction Hb as [|x l Hx _ IH]; cbn [app find].
  - rewrite Hc, String.eqb_refl. reflexivity.
  - apply String.eqb_neq in Hx. rewrite Hx. exact IH.
Qed.

Lemma find_none (topic : string) (cs : list Command) :
  Forall (fun x => cmd_Name x <> topic) cs ->
  find (fun x => String.eqb (cmd_Name x) topic) cs = None.
Proof.
  intros H. induction H as [|x l Hx _ IH]; [reflexivity|].
  cbn [find]. apply String.eqb_neq in Hx. rewrite Hx. exact IH.
Qed.

(** X20.  [help TOPIC] prints the usage of the first registered command of
    that name and returns, without a diagnostic. *)
Theorem runHelp_topic env (topic : string) (noop : bool)
        (before after : list Command) (c : Command) :
  All (env_registry env) = before ++ c :: after ->
  cmd_Name c = topic ->
  Forall (fun x => cmd_Name x <> topic) before ->
  run (runHelp env) (mkArgs [topic] noop)
  = (mkState (mkArgs [topic] noop) [EvPrintCommandUsage c] [], Returned tt).
Proof.
  intros Hall Hc Hb.
  unfold run, init_state, runHelp. unfold_go.
  repeat (cbn -[find];
          try change (Z.of_nat 1 =? 0) with false;
          try change (Z.of_nat 1 =? 1) with true).
  rewrite Hall, (find_first topic before after c Hc Hb). reflexivity.
Qed.

Lemma runHelp_topic_witness :
  let c := mkCommand "remote" "View and manage a set of remote repositories" true true in
  All (env_registry sample_env)
  = [mkCommand "router" "Routes to its actions" false true] ++ c
      :: [mkCommand "help" "Show help" true true] /\
  run (runHelp sample_env) (mkArgs ["remote"] false)
  = (mkState (mkArgs ["remote"] false) [EvPrintCommandUsage c] [], Returned tt).
Proof.
  intros c. split; [reflexivity|].
  apply (runHelp_topic sample_env "remote" false
           [mkCommand "router" "Routes to its actions" false true]
           [mkCommand "help" "Show help" true true] c eq_refl eq_refl).
  constructor; [discriminate | constructor].
Defined.

(** X21.  [help TOPIC] for a name no registered command has prints "Unknown
    help topic" on standard error, nothing on standard output, and ends the
    process with status 2. *)
Theorem runHelp_unknown_topic env (topic : string) (noop : bool) :
  Forall (fun x => cmd_Name x <> topic) (All (env_registry env)) ->
  run (runHelp env) (mkArgs [topic] noop)
  = (mkState (mkArgs [topic] noop)
             [EvStderr ("Unknown help topic: " +:+ env_fmt_q env topic
                        +:+ ". Run 'gh help'." +:+ nl)] [],
     Exited 2).
Proof.
  intros Hall.
  unfold run, init_state, runHelp. unfold_go.
  repeat (cbn -[find];
          try change (Z.of_nat 1 =? 0) with false;
          try change (Z.of_nat 1 =? 1) with true).
  rewrite (find_none topic _ Hall). reflexivity.
Qed.

Lemma runHelp_unknown_topic_witness :
  Forall (fun x => cmd_Name x <> "frobnicate") (All (env_registry sample_env)) /\
  outcome_of (run (runHelp sample_env) (mkArgs ["frobnicate"] false)) = Exited 2.
Proof.
  assert (H : Forall (fun x => cmd_Name x <> "frobnicate") (All (env_registry sample_env))).
  { repeat (constructor; [discriminate|]). constructor. }
  split; [exact H|].
  rewrite (runHelp_unknown_topic sample_env "frobnicate" false H). reflexivity.
Defined.

Lemma rune_count_spaces (k : nat) : rune_count (spaces k) = k.
Proof. induction k as [|k IH]; [reflexivity|]. cbn [spaces rune_count]. 
  change (nat_of_ascii " " <? 128)%nat with true. cbv iota. rewrite IH. reflexivity. Qed.

Lemma leading_range (c : ascii) size lo hi :
  leading c = Some (size, lo, hi) -> (128 <= lo)%nat.
Proof.
  unfold leading.
  repeat match goal with
         | |- context [if ?b then _ else _] => destruct b
         end; intros H; inversion H; lia.
Qed.

Lemma continuation_space lo hi : (128 <= lo)%nat -> continuation lo hi " " = false.
Proof.
  intros H. unfold continuation. change (nat_of_ascii " ") with 32%nat.
  apply andb_false_iff. left. apply Nat.leb_gt. lia.
Qed.

Lemma rune_count_pad (s : string) (k : nat) :
  rune_count (s +:+ spaces k) = (rune_count s + k)%nat.
Proof.
  assert (H : forall n s, (String.length s <= n)%nat ->
                          rune_count (s +:+ spaces k) = (rune_count s + k)%nat).
  { clear s. induction n as [|n IH]; intros s Hn.
    - destruct s; [|cbn in Hn; lia]. apply rune_count_spaces.
    - destruct s as [|c r]; [apply rune_count_spaces|].
      change (String c r +:+ spaces k) with (String c (r +:+ spaces k)).
      assert (Hr : rune_count (r +:+ spaces k) = (rune_count r + k)%nat)
        by (apply IH; cbn in Hn; lia).
      cbn [rune_count].
      destruct (nat_of_ascii c <? 128)%nat; [rewrite Hr; reflexivity|].
      destruct (leading c) as [[[size lo] hi]|] eqn:Hlead.
      2:{ rewrite Hr. reflexivity. }
      pose proof (leading_range c size lo hi Hlead) as Hlo.
      destruct r as [|c1 r1].
      { change ("" +:+ spaces k) with (spaces k) in *.
        destruct k as [|k]; cbn [spaces] in *; cbv beta iota; [lia|].
        rewrite (continuation_space lo hi Hlo). rewrite Hr. reflexivity. }
      change (String c1 r1 +:+ spaces k) with (String c1 (r1 +:+ spaces k)) in *. cbv beta iota.
      destruct (continuation lo hi c1); [|rewrite Hr; reflexivity].
      destruct (size =? 2)%nat.
      { rewrite IH by (cbn in Hn; lia). reflexivity. }
      destruct r1 as [|c2 r2].
      { change ("" +:+ spaces k) with (spaces k) in *.
        destruct k as [|k]; cbn [spaces] in *; cbv beta iota; [lia|].
        rewrite (continuation_space 128 191) by lia. rewrite Hr. reflexivity. }
      change (String c2 r2 +:+ spaces k) with (String c2 (r2 +:+ spaces k)) in *. cbv beta iota.
      destruct (continuation 128 191 c2); [|rewrite Hr; reflexivity].
      destruct (size =? 3)%nat.
      { rewrite IH by (cbn in Hn; lia). reflexivity. }
      destruct r2 as [|c3 r3].
      { change ("" +:+ spaces k) with (spaces k) in *.
        destruct k as [|k]; cbn [spaces] in *; cbv beta iota; [lia|].
        rewrite (continuation_space 128 191) by lia. rewrite Hr. reflexivity. }
      change (String c3 r3 +:+ spaces k) with (String c3 (r3 +:+ spaces k)) in *. cbv beta iota.
      destruct (continuation 128 191 c3); [|rewrite Hr; reflexivity].
      rewrite IH by (cbn in Hn; lia). reflexivity. }
  exact (H (String.length s) s (Nat.le_refl _)).
Qed.

Lemma rune_count_ascii (s : string) : ascii_text s = true -> rune_count s = String.length s.
Proof.
  induction s as [|c s IH]; [reflexivity|]. cbn [ascii_text rune_count String.length].
  intros H. apply andb_true_iff in H as [Hc Hs]. rewrite Hc, (IH Hs). reflexivity.
Qed.

Lemma spaces_length (n : nat) : String.length (spaces n) = n.
Proof.
  induction n as [|n IH]; [reflexivity|]. cbn [spaces String.length]. rewrite IH. reflexivity.
Qed.

(** X22.  In the usage text the name of a command stands first in its
    column and is followed by as many spaces as it takes to fill 16
    characters; a name of 16 characters or more is printed whole, with no
    space added.  Characters are counted, not bytes; for a name of ASCII
    characters the column is 16 bytes wide. *)
Theorem usage_columns (c : Command) :
  let name := cmd_Name c in
  (exists k,
      usage_entry c = nl +:+ "    " +:+ name +:+ spaces k +:+ "  " +:+ cmd_Short c /\
      pad16 name = name +:+ spaces k /\
      (rune_count name + k)%nat = Nat.max 16 (rune_count name)) /\
  rune_count (pad16 name) = Nat.max 16 (rune_count name) /\
  ((16 <= rune_count name)%nat -> pad16 name = name) /\
  (ascii_text name = true ->
   String.length (pad16 name) = Nat.max 16 (String.length name)).
Proof.
  cbv zeta. unfold pad16. split; [|split; [|split]].
  - exists (16 - rune_count (cmd_Name c))%nat. split; [|split; [reflexivity | lia]].
    unfold usage_entry, pad16. rewrite !string_append_assoc. reflexivity.
  - rewrite rune_count_pad. lia.
  - intros H. replace (16 - rune_count (cmd_Name c))%nat with 0%nat by lia.
    cbn [spaces]. apply string_append_empty.
  - intros H. rewrite string_length_append, spaces_length, (rune_count_ascii _ H). lia.
Qed.

Ltac editor_leaf :=
  split;
  [ let f := fresh "f" in
    let F := fresh "F" in
    intros f F; first [ discriminate F | flag_absurd ]
  | let p := fresh "p" in
    let params := fresh "params" in
    let Heq := fresh "Heq" in
    intros p params Heq;
    first [ discriminate Heq
          | flag_absurd
          | inversion Heq; subst; cbn [Name Body];
            match goal with
            | |- Ok ?a = _ => destruct a; reflexivity
            end ] ].

(** X11.  With neither [--message] nor [--file], [createRelease] reads no
    message file, and the title and body of the release it creates are the
    ones the editor returned. *)
Theorem createRelease_editor_path env flags (ps : list string) (noop : bool) :
  let t := trace_of (run (createRelease env flags) (mkArgs ps noop)) in
  flagReleaseMessage flags = "" ->
  flagReleaseFile flags = "" ->
  (forall f, ~ In (EvReadMsgFromFile f) t) /\
  forall p params,
    In (EvCreateRelease p params) t ->
    env_EditTitleAndBody env = Ok (Name params, Body params).
Proof.
  cbv zeta. intros Hm Hf.
  assert (H : Forall (fun e =>
                        (forall f, e <> EvReadMsgFromFile f) /\
                        forall p params,
                          e = EvCreateRelease p params ->
                          env_EditTitleAndBody env = Ok (Name params, Body params))
                     (trace_of (run (createRelease env flags) (mkArgs ps noop)))).
  { destruct noop; exec_createRelease; every_event editor_leaf. }
  rewrite Forall_forall in H. split.
  - intros f HIn. exact (proj1 (H _ (proj2 (list_elem_of_In _ _) HIn)) f eq_refl).
  - intros p params HIn.
    exact (proj2 (H _ (proj2 (list_elem_of_In _ _) HIn)) p params eq_refl).
Qed.

Lemma createRelease_editor_path_witness :
  let t := trace_of (run (createRelease sample_env no_flags) (mkArgs ["v1.0"] false)) in
  let params := release_params no_flags "Edited title" "v1.0" "master" "Edited body" in
  flagReleaseMessage no_flags = "" /\
  flagReleaseFile no_flags = "" /\
  In (EvCreateRelease sample_project params) t /\
  env_EditTitleAndBody sample_env = Ok (Name params, Body params).
Proof.
  intros t params.
  assert (HIn : In (EvCreateRelease sample_project params) t).
  { vm_compute. do 8 right. left. reflexivity. }
  split; [reflexivity|]. split; [reflexivity|]. split; [exact HIn|].
  exact (proj2 (createRelease_editor_path sample_env no_flags ["v1.0"] false
                  eq_refl eq_refl) _ _ HIn).
Defined.

Lemma usage_columns_witness :
  let remote := mkCommand "remote" "View and manage a set of remote repositories" true true in
  let e_acute := String (ascii_of_nat 195) (String (ascii_of_nat 169) EmptyString) in
  let cafe := mkCommand ("caf" +:+ e_acute) "Take a break" true true in
  ascii_text (cmd_Name remote) = true /\
  String.length (pad16 (cmd_Name remote)) = 16%nat /\
  String.length (cmd_Name cafe) = 5%nat /\
  rune_count (pad16 (cmd_Name cafe)) = 16%nat /\
  pad16 (cmd_Name cafe) = cmd_Name cafe +:+ spaces 12.
Proof.
  intros remote e_acute cafe.
  assert (H : ascii_text (cmd_Name remote) = true) by reflexivity.
  split; [exact H|].
  split; [exact (proj2 (proj2 (proj2 (usage_columns remote))) H)|].
  split; [reflexivity|].
  split; [exact (proj1 (proj2 (usage_columns cafe)))|].
  reflexivity.
Defined.
